(** * limpiarfondo.py: batch background removal

    A shallow embedding of [src/limpiarfondo.py] and the properties of its
    batch engine: the per-image pipeline [procesar_imagen], the candidate
    filter over [VALID_EXTENSIONS], the process pool loop of [main] and its
    sequential fallback.

    Conventions of the model.
    - A Python [str] is a Rocq [string] holding its UTF-8 encoding.  UTF-8 is
      self-synchronising, so the substring test [x in s] on code points and
      the one on encoded bytes agree.
    - The file system is a finite map from the path text, as spelled, to a
      node.  Links, [.]/[..], repeated and trailing separators are outside
      the model.  The folder that holds a path is its [os.path.dirname]; a
      file is created only in a folder that is a directory of the map, the
      working directory and the root being always there.
    - A raised exception is a value carrying what the handler reads from it:
      [str(e)] and [traceback.format_exc()].  Exceptions range over the
      instances of [Exception], the class the handlers of the program name.
    - [rembg.remove], the PIL decoder and the PIL encoder are parameters,
      functions of their arguments.
    - Of the console output only the progress lines of [main] are kept.
    - Workers interleave at the grain of whole tasks. *)

From Stdlib Require Import ZArith Lia Ascii.
From stdpp Require Import base option list strings gmap.

Local Open Scope Z_scope.

(** ** Python strings *)

Module Str.

(** [len(s)] *)
Definition len (s : string) : Z := Z.of_nat (String.length s).

(** [s.startswith(p)] *)
Definition startswith (s p : string) : bool := String.prefix p s.

Fixpoint last_char (s : string) : option ascii :=
  match s with
  | EmptyString => None
  | String c EmptyString => Some c
  | String _ s' => last_char s'
  end.

(** [s.endswith(c)] for a one-character [c] *)
Definition endswith_char (s : string) (c : ascii) : bool :=
  match last_char s with
  | Some d => Ascii.eqb d c
  | None => false
  end.

Fixpoint rfind_from (c : ascii) (s : string) (i last : Z) : Z :=
  match s with
  | EmptyString => last
  | String d s' => rfind_from c s' (i + 1) (if Ascii.eqb d c then i else last)
  end.

(** [s.rfind(c)]: the index of the last occurrence, [-1] when there is none *)
Definition rfind (c : ascii) (s : string) : Z := rfind_from c s 0 (-1).

(** [s[:k]] and [s[k:]] for [0 <= k] *)
Definition take (k : Z) (s : string) : string :=
  String.substring 0 (Z.to_nat k) s.
Definition drop (k : Z) (s : string) : string :=
  String.substring (Z.to_nat k) (String.length s - Z.to_nat k) s.

(** [s[i:i+1]] *)
Definition slice1 (i : Z) (s : string) : string :=
  String.substring (Z.to_nat i) 1 s.

(** [x in s] *)
Fixpoint contains (x s : string) : bool :=
  String.prefix x s ||
  match s with
  | EmptyString => false
  | String _ s' => contains x s'
  end.

Definition lower_char (c : ascii) : ascii :=
  let n := N_of_ascii c in
  if ((65 <=? n) && (n <=? 90))%N then ascii_of_N (n + 32) else c.

(** [s.lower()].  On the encoding only the ASCII capitals move; a code
    point outside ASCII stays outside ASCII or becomes [k], [i] followed by
    a combining dot, or a-ring, none of which completes a name of
    [VALID_EXTENSIONS], so membership in that tuple is decided alike. *)
Fixpoint lower (s : string) : string :=
  match s with
  | EmptyString => EmptyString
  | String c s' => String (lower_char c) (lower s')
  end.

(** [s.split(c)] *)
Fixpoint split (c : ascii) (s : string) : list string :=
  match s with
  | EmptyString => [EmptyString]
  | String d s' =>
      if Ascii.eqb d c then EmptyString :: split c s'
      else match split c s' with
           | [] => [String d EmptyString]
           | x :: xs => String d x :: xs
           end
  end.

Fixpoint has_char (c : ascii) (s : string) : bool :=
  match s with
  | EmptyString => false
  | String d s' => Ascii.eqb d c || has_char c s'
  end.

(** The characters [str.strip()] removes are those of [str.isspace]: in
    ASCII the tab to the carriage return, the separators [0x1c] to [0x1f]
    and the space; beyond, U+0085, U+00A0, U+1680, U+2000 to U+200A, U+2028,
    U+2029, U+202F, U+205F and U+3000.  Each test is on the bytes of the
    encoding: one byte, two bytes, three bytes. *)
Definition es_espacio1 (a : ascii) : bool :=
  let x := N_of_ascii a in
  (((9 <=? x) && (x <=? 13)) || ((28 <=? x) && (x <=? 32)))%N.

Definition es_espacio2 (a b : ascii) : bool :=
  let x := N_of_ascii a in
  let y := N_of_ascii b in
  ((x =? 194) && ((y =? 133) || (y =? 160)))%N.

Definition es_espacio3 (a b c : ascii) : bool :=
  let x := N_of_ascii a in
  let y := N_of_ascii b in
  let z := N_of_ascii c in
  (((x =? 225) && ((y =? 154) && (z =? 128)))
   || ((x =? 226) && ((y =? 128) &&
         (((128 <=? z) && (z <=? 138)) || (z =? 168) || (z =? 169) || (z =? 175))))
   || ((x =? 226) && ((y =? 129) && (z =? 159)))
   || ((x =? 227) && ((y =? 128) && (z =? 128))))%N.

(** [s.lstrip()] *)
Fixpoint lstrip (s : string) : string :=
  match s with
  | EmptyString => EmptyString
  | String a r =>
      if es_espacio1 a then lstrip r
      else match r with
           | EmptyString => s
           | String b r2 =>
               if es_espacio2 a b then lstrip r2
               else match r2 with
                    | EmptyString => s
                    | String c r3 => if es_espacio3 a b c then lstrip r3 else s
                    end
           end
  end.

(** [s.isspace()] or [s == ""] *)
Definition solo_espacios (s : string) : bool := String.eqb (lstrip s) EmptyString.

(** [s.rstrip()]: what is left once the longest run of white space that
    ends [s] is cut. *)
Fixpoint rstrip (s : string) : string :=
  match s with
  | EmptyString => EmptyString
  | String a r => if solo_espacios s then EmptyString else String a (rstrip r)
  end.

(** [s.strip()] *)
Definition strip (s : string) : string := rstrip (lstrip s).

End Str.

(** ** [os.path] and [pathlib] *)

Definition sep : ascii := "/"%char.
Definition extsep : ascii := "."%char.

(** [os.path.join(a, b)] of [posixpath] *)
Definition path_join (a b : string) : string :=
  if Str.startswith b (String sep EmptyString) then b
  else if String.eqb a EmptyString || Str.endswith_char a sep then a +:+ b
  else a +:+ String sep EmptyString +:+ b.

(** What [os.path.join(a, b)] puts before a relative [b]. *)
Definition dir_prefix (a : string) : string :=
  if String.eqb a EmptyString || Str.endswith_char a sep then a
  else a +:+ String sep EmptyString.

(** The [while] loop of [genericpath._splitext]: is there a character other
    than the dot in [p[filenameIndex:dotIndex]]?  [n] bounds the iterations by
    [dotIndex - filenameIndex]. *)
Fixpoint splitext_scan (p : string) (n : nat) (filenameIndex : Z) : bool :=
  match n with
  | O => false
  | S n' =>
      if negb (String.eqb (Str.slice1 filenameIndex p) (String extsep EmptyString))
      then true
      else splitext_scan p n' (filenameIndex + 1)
  end.

(** [os.path.splitext(p)] *)
Definition splitext (p : string) : string * string :=
  let sepIndex := Str.rfind sep p in
  let dotIndex := Str.rfind extsep p in
  if (dotIndex >? sepIndex) &&
     splitext_scan p (Z.to_nat (dotIndex - (sepIndex + 1))) (sepIndex + 1)
  then (Str.take dotIndex p, Str.drop dotIndex p)
  else (p, EmptyString).

(** [Path(s).name]: the last component of the parsed path, where empty
    components and [.] are dropped. *)
Definition path_name (s : string) : string :=
  List.last
    (List.filter
       (fun c => negb (String.eqb c "") && negb (String.eqb c "."))
       (Str.split sep s))
    EmptyString.

(** [Path(s).stem]: the name without its last suffix; a leading or a
    trailing dot starts no suffix. *)
Definition stem (s : string) : string :=
  let name := path_name s in
  let i := Str.rfind extsep name in
  if (0 <? i) && (i <? Str.len name - 1) then Str.take i name else name.

(** The double quote. *)
Definition comilla : ascii := ascii_of_nat 34.

(** [s.lstrip(c)], [s.rstrip(c)] and [s.strip(c)] for a one-character [c] *)
Fixpoint lstrip_char (c : ascii) (s : string) : string :=
  match s with
  | EmptyString => EmptyString
  | String d s' => if Ascii.eqb d c then lstrip_char c s' else s
  end.

Fixpoint rstrip_char (c : ascii) (s : string) : string :=
  match s with
  | EmptyString => EmptyString
  | String d s' =>
      match rstrip_char c s' with
      | EmptyString => if Ascii.eqb d c then EmptyString else String d EmptyString
      | r => String d r
      end
  end.

Definition strip_char (c : ascii) (s : string) : string :=
  rstrip_char c (lstrip_char c s).

(** [c * n] *)
Fixpoint repeat_char (c : ascii) (n : nat) : string :=
  match n with
  | O => EmptyString
  | S n' => String c (repeat_char c n')
  end.

(** [os.path.dirname(p)] of [posixpath] *)
Definition path_dirname (p : string) : string :=
  let i := (Str.rfind sep p + 1)%Z in
  let head := Str.take i p in
  if negb (String.eqb head EmptyString) &&
     negb (String.eqb head (repeat_char sep (String.length head)))
  then rstrip_char sep head
  else head.

(** ** Values, exceptions and the file system *)

Definition bytes := list Byte.byte.

Record excepcion := Excepcion { exc_str : string; exc_tb : string }.

Inductive outcome (A : Type) : Type :=
| Return (a : A)
| Raise (e : excepcion).
Arguments Return {A} a.
Arguments Raise {A} e.

Inductive node :=
| File (content : bytes)
| Dir (st_size : Z).

Abbreviation filesystem := (gmap string node).

Inductive os_fault := ENOENT | EISDIR.

Definition is_dir (n : option node) : bool :=
  match n with
  | Some (Dir _) => true
  | _ => false
  end.

(** ** Computations: file-system state and exceptions *)

Definition Py (A : Type) : Type := filesystem → filesystem * outcome A.

Definition py_ret {A} (a : A) : Py A := λ fs, (fs, Return a).

Definition py_bind {A B} (f : A → Py B) (m : Py A) : Py B :=
  λ fs, match m fs with
        | (fs', Return a) => f a fs'
        | (fs', Raise e) => (fs', Raise e)
        end.

#[export] Instance py_mret : MRet Py := @py_ret.
#[export] Instance py_mbind : MBind Py := @py_bind.

(** A call into a collaborator that touches no file. *)
Definition py_call {A} (o : outcome A) : Py A := λ fs, (fs, o).

(** [try: body / except Exception as e: handler(e)] *)
Definition try_except {A} (body : Py A) (handler : excepcion → Py A) : Py A :=
  λ fs, match body fs with
        | (fs', Return a) => (fs', Return a)
        | (fs', Raise e) => handler e fs'
        end.

Definition nl : string := String (ascii_of_nat 10) EmptyString.

(** The six [return] statements of [procesar_imagen], each an f-string:
    the constructor names the statement and holds the values it formats. *)
Inductive Mensaje :=
| NoEncontrado (filename : string)
| SinDatos (filename : string)
| RembgVacio (filename : string)
| Exito (filename output_filename : string)
| ErrorGuardar (filename : string)
| ErrorCon (filename : string) (e : excepcion).

(** The text of each f-string. *)
Definition render (m : Mensaje) : string :=
  match m with
  | NoEncontrado filename => "❌ Archivo no encontrado: " +:+ filename
  | SinDatos filename => "❌ No se pudieron leer datos de: " +:+ filename
  | RembgVacio filename =>
      "❌ Error con " +:+ filename +:+ ": rembg no devolvió datos"
  | Exito filename output_filename =>
      "✅ Procesado exitosamente: " +:+ filename +:+ " → " +:+ output_filename
  | ErrorGuardar filename => "❌ Error al guardar: " +:+ filename
  | ErrorCon filename e =>
      "❌ Error con " +:+ filename +:+ ": " +:+ exc_str e +:+ nl +:+ exc_tb e
  end.

(** The [return] statement a message comes from, by its line in the
    source. *)
Inductive Sitio := L64 | L72 | L82 | L100 | L102 | L106.

#[export] Instance sitio_eq_dec : EqDecision Sitio.
Proof. solve_decision. Defined.

Definition sitio (m : Mensaje) : Sitio :=
  match m with
  | NoEncontrado _ => L64
  | SinDatos _ => L72
  | RembgVacio _ => L82
  | Exito _ _ => L100
  | ErrorGuardar _ => L102
  | ErrorCon _ _ => L106
  end.

(** The [filename] a message formats. *)
Definition nombre_de (m : Mensaje) : string :=
  match m with
  | NoEncontrado f | SinDatos f | RembgVacio f | Exito f _
  | ErrorGuardar f | ErrorCon f _ => f
  end.

Definition Task : Type := string * string * string.

Section Programa.

(** The decoded picture, opaque to the program. *)
Variable Image : Type.
(** [rembg.remove] *)
Variable remove : bytes → outcome bytes.
(** [Image.open(io.BytesIO(b)).convert("RGBA")] *)
Variable image_open_rgba : bytes → outcome Image.
(** The encoder behind [Image.save]: format, [lossless], [quality]. *)
Variable image_encode : Image → string → bool → Z → outcome bytes.
(** The [OSError] the interpreter raises for a fault on a path. *)
Variable os_error : os_fault → string → excepcion.
(** The error, if any, with which the system refuses to create a path or
    to open it for writing: permissions, a read-only volume. *)
Variable denegado : string → option excepcion.

(** [os.path.exists(p)] *)
Definition os_path_exists (p : string) : Py bool :=
  λ fs, (fs, Return (bool_decide (is_Some (fs !! p)))).

(** [os.path.getsize(p)] *)
Definition os_path_getsize (p : string) : Py Z :=
  λ fs, match fs !! p with
        | Some (File c) => (fs, Return (Z.of_nat (length c)))
        | Some (Dir sz) => (fs, Return sz)
        | None => (fs, Raise (os_error ENOENT p))
        end.

(** [with open(p, "rb") as f: f.read()] *)
Definition read_file (p : string) : Py bytes :=
  λ fs, match fs !! p with
        | Some (File c) => (fs, Return c)
        | Some (Dir _) => (fs, Raise (os_error EISDIR p))
        | None => (fs, Raise (os_error ENOENT p))
        end.

(** Is the folder that holds [p] a directory? *)
Definition hay_carpeta (p : string) (fs : filesystem) : bool :=
  let d := path_dirname p in
  String.eqb d EmptyString
  || String.eqb d (repeat_char sep (String.length d))
  || is_dir (fs !! d).

(** What opening [p] for writing fails with, if it fails: a directory
    stands at [p], no directory holds [p], or the system refuses. *)
Definition abrir_escritura (p : string) (fs : filesystem) : option excepcion :=
  if is_dir (fs !! p) then Some (os_error EISDIR p)
  else if negb (hay_carpeta p fs) then Some (os_error ENOENT p)
  else denegado p.

(** [img.save(path, fmt, lossless=..., quality=...)].  PIL opens the file
    for writing, which fails on a directory, in a folder that is not there
    and where the system refuses, and then encodes into it.  When the
    encoder raises, a file that PIL created is removed and a file that was
    there stays truncated. *)
Definition image_save (img : Image) (path fmt : string)
    (lossless : bool) (quality : Z) : Py () :=
  λ fs, match abrir_escritura path fs with
        | Some e => (fs, Raise e)
        | None =>
            match image_encode img fmt lossless quality with
            | Return data => (<[path := File data]> fs, Return ())
            | Raise e =>
                (match fs !! path with
                 | Some _ => <[path := File []]> fs
                 | None => fs
                 end, Raise e)
            end
        end.

Definition input_path_of (t : Task) : string :=
  let '(input_folder, _, filename) := t in path_join input_folder filename.

Definition output_filename_of (filename : string) : string :=
  stem filename +:+ "_sin_fondo.webp".

Definition output_path_of (t : Task) : string :=
  let '(_, output_folder, filename) := t in
  path_join output_folder (output_filename_of filename).

(** The body of the [try] of [procesar_imagen], from the existence check
    to the verification of the written file. *)
Definition procesar_imagen_body (args : Task) : Py Mensaje :=
  let '(input_folder, output_folder, filename) := args in
  let input_path := path_join input_folder filename in
  existe ← os_path_exists input_path;
  if negb existe then mret (NoEncontrado filename) else
  in_bytes ← read_file input_path;
  if bool_decide (in_bytes = []) then mret (SinDatos filename) else
  out_bytes ← py_call (remove in_bytes);
  if bool_decide (out_bytes = []) then mret (RembgVacio filename) else
  output_img ← py_call (image_open_rgba out_bytes);
  let name := stem filename in
  let output_filename := name +:+ "_sin_fondo.webp" in
  let output_path := path_join output_folder output_filename in
  _ ← image_save output_img output_path "WEBP" true 100;
  escrito ← os_path_exists output_path;
  tam ← (if escrito then os_path_getsize output_path else mret 0);
  if escrito && (tam >? 0)
  then mret (Exito filename output_filename)
  else mret (ErrorGuardar filename).

(** [procesar_imagen(args)] up to the formatting of the returned text:
    the [try] and its handler. *)
Definition procesar_imagen_msg (args : Task) : Py Mensaje :=
  try_except (procesar_imagen_body args)
    (λ e, mret (ErrorCon (args.2) e)).

(** [procesar_imagen(args)] *)
Definition procesar_imagen (args : Task) : Py string :=
  m ← procesar_imagen_msg args; mret (render m).

End Programa.

Local Close Scope Z_scope.

(** ** The batch: candidate files, the pool loop and the fallback *)

Definition VALID_EXTENSIONS : list string :=
  [".jpg"; ".jpeg"; ".png"; ".webp"; ".bmp"; ".tiff"].

(** The test of the candidate loop:
    [os.path.splitext(f)[1].lower() in VALID_EXTENSIONS]. *)
Definition es_imagen (f : string) : bool :=
  bool_decide (Str.lower (splitext f).2 ∈ VALID_EXTENSIONS).

(** The loop that fills [archivos] from [os.listdir(input_folder)]. *)
Definition buscar_archivos (listdir : list string) : list string :=
  fold_left (λ archivos f, if es_imagen f then archivos ++ [f] else archivos)
    listdir [].

(** A line [print(f"[{i}/{len(archivos)}] {resultado}")]. *)
Record Linea := { li_i : nat; li_total : nat; li_texto : string }.

(** What [main] holds while it processes: the file system, the two
    counters and the progress lines printed so far. *)
Record Estado := {
  est_fs : filesystem;
  resultados_exitosos : nat;
  resultados_con_error : nat;
  est_stdout : list Linea
}.

Definition con_fs (fs : filesystem) (st : Estado) : Estado :=
  {| est_fs := fs;
     resultados_exitosos := resultados_exitosos st;
     resultados_con_error := resultados_con_error st;
     est_stdout := est_stdout st |}.

(** The body shared by the two loops of [main]: print the line, then count
    the result by the mark it contains. *)
Definition contar (i total : nat) (resultado : string) (st : Estado) : Estado :=
  let salida := est_stdout st ++ [{| li_i := i; li_total := total; li_texto := resultado |}] in
  if Str.contains "✅" resultado then
    {| est_fs := est_fs st;
       resultados_exitosos := resultados_exitosos st + 1;
       resultados_con_error := resultados_con_error st;
       est_stdout := salida |}
  else
    {| est_fs := est_fs st;
       resultados_exitosos := resultados_exitosos st;
       resultados_con_error := resultados_con_error st + 1;
       est_stdout := salida |}.

(** [max_workers = min(2, len(archivos))] *)
Definition max_workers (archivos : list string) : nat :=
  Nat.min 2 (length archivos).

(** One run of the process pool, as [main] can observe it: the tasks the
    workers ran to completion, by index into [tareas] and in the order they
    finished, and the exception of a pool that broke (it could not be built,
    or a worker process died), which every future without a result then
    carries. *)
Record PoolRun := { completadas : list nat; fallo : option excepcion }.

(** With [w] workers the task of index [j] starts once [j + 1 - w] tasks
    have finished, so it is not among the first [j + 1 - w] to finish. *)
Definition planificable (w : nat) (orden : list nat) : bool :=
  forallb (λ pj, pj.2 <? pj.1 + w) (combine (seq 0 (length orden)) orden).

(** A pool that stays up runs every task once. *)
Definition pool_sano (w n : nat) (p : PoolRun) : Prop :=
  fallo p = None ∧ completadas p ≡ₚ seq 0 n ∧ planificable w (completadas p) = true.

(** A pool that breaks has run some of the tasks, none twice. *)
Definition pool_roto (w n : nat) (p : PoolRun) : Prop :=
  is_Some (fallo p) ∧ NoDup (completadas p) ∧
  Forall (λ j, j < n) (completadas p) ∧ planificable w (completadas p) = true.

(** How an iteration over [executor.map] ends. *)
Inductive Fin :=
| Agotado
| Interrumpido (e : excepcion)
| Bloqueado.

Inductive MainResult :=
| SinImagenes
| Resumen (st : Estado)
| NoCapturada (e : excepcion) (st : Estado)
| Colgado (st : Estado).

(** The futures of a pool, by the index of their task. *)
Abbreviation Futuros := (gmap nat (outcome string)).

Section Lote.

Variable Image : Type.
Variable remove : bytes → outcome bytes.
Variable image_open_rgba : bytes → outcome Image.
Variable image_encode : Image → string → bool → Z → outcome bytes.
Variable os_error : os_fault → string → excepcion.
Variable denegado : string → option excepcion.

Abbreviation procesar :=
  (procesar_imagen Image remove image_open_rgba image_encode os_error denegado).

(** A worker takes the task of index [j], runs [procesar_imagen] on it and
    sets its future. *)
Definition ejecutar_tarea (tareas : list Task) (w : filesystem * Futuros)
    (j : nat) : filesystem * Futuros :=
  match tareas !! j with
  | Some t => let '(fs', r) := procesar t w.1 in (fs', <[j := r]> w.2)
  | None => w
  end.

Definition trabajadores (tareas : list Task) (orden : list nat)
    (fs : filesystem) : filesystem * Futuros :=
  fold_left (ejecutar_tarea tareas) orden (fs, ∅).

(** [for i, resultado in enumerate(executor.map(procesar_imagen, tareas), 1)]:
    the iterator of [map] hands out the futures' results in the order the
    tasks were submitted, [indices] being the futures left; a future that
    holds an exception raises it. *)
Fixpoint consumir (futuros : Futuros) (fallo : option excepcion)
    (total i : nat) (indices : list nat) (st : Estado) : Estado * Fin :=
  match indices with
  | [] => (st, Agotado)
  | j :: resto =>
      match futuros !! j with
      | Some (Return resultado) =>
          consumir futuros fallo total (S i) resto (contar i total resultado st)
      | Some (Raise e) => (st, Interrumpido e)
      | None =>
          match fallo with
          | Some e => (st, Interrumpido e)
          | None => (st, Bloqueado)
          end
      end
  end.

(** The [with ProcessPoolExecutor(...)] block. *)
Definition pool_loop (tareas : list Task) (total : nat) (p : PoolRun)
    (st : Estado) : Estado * Fin :=
  let '(fs', futuros) := trabajadores tareas (completadas p) (est_fs st) in
  consumir futuros (fallo p) total 1 (seq 0 (length tareas)) (con_fs fs' st).

(** The fallback loop:
    [for i, archivo in enumerate(archivos, 1)]. *)
Fixpoint secuencial (input_folder output_folder : string) (total i : nat)
    (archivos : list string) (st : Estado) : Estado * option excepcion :=
  match archivos with
  | [] => (st, None)
  | archivo :: resto =>
      match procesar (input_folder, output_folder, archivo) (est_fs st) with
      | (fs', Return resultado) =>
          secuencial input_folder output_folder total (S i) resto
            (contar i total resultado (con_fs fs' st))
      | (fs', Raise e) => (con_fs fs' st, Some e)
      end
  end.

(** [main] from the search for candidate files on, for an [input_folder]
    that passed the checks, the names [os.listdir] returned for it and
    the run [p] of the pool of [max_workers archivos] workers.  The counters
    the pool loop has reached stay as they are when the handler starts the
    fallback loop. *)
Definition main (input_folder : string) (listdir : list string)
    (p : PoolRun) (fs : filesystem) : MainResult :=
  let output_folder := path_join input_folder "imagenes_sin_fondo" in
  let archivos := buscar_archivos listdir in
  if bool_decide (archivos = []) then SinImagenes else
  let st0 := {| est_fs := fs; resultados_exitosos := 0;
                resultados_con_error := 0; est_stdout := [] |} in
  let tareas := (λ f, (input_folder, output_folder, f)) <$> archivos in
  match pool_loop tareas (length archivos) p st0 with
  | (st1, Agotado) => Resumen st1
  | (st1, Bloqueado) => Colgado st1
  | (st1, Interrumpido _) =>
      match secuencial input_folder output_folder (length archivos) 1 archivos st1 with
      | (st2, None) => Resumen st2
      | (st2, Some e) => NoCapturada e st2
      end
  end.

(** The message and the text [procesar_imagen] returns for a task on a
    given file system. *)
Definition mensaje_en (fs : filesystem) (t : Task) : Mensaje :=
  match (procesar_imagen_msg Image remove image_open_rgba image_encode os_error denegado t fs).2 with
  | Return m => m
  | Raise e => ErrorCon (t.2) e
  end.

Definition resultado_en (fs : filesystem) (t : Task) : string :=
  render (mensaje_en fs t).


(** The results of a pool run in the order the workers finished. *)
Definition en_orden_de_finalizacion (tareas : list Task) (p : PoolRun)
    (fs : filesystem) : list string :=
  let futuros := (trabajadores tareas (completadas p) fs).2 in
  omap (λ j, match futuros !! j with
             | Some (Return r) => Some r
             | _ => None
             end) (completadas p).

(** The decoding step is reached and raises [e]. *)
Definition falla_decodificacion (t : Task) (fs : filesystem) (e : excepcion) : Prop :=
  ∃ c out, fs !! input_path_of t = Some (File c) ∧ c ≠ [] ∧
    remove c = Return out ∧ out ≠ [] ∧ image_open_rgba out = Raise e.

(** The write step is reached and [save] raises [e]. *)
Definition falla_escritura (t : Task) (fs : filesystem) (e : excepcion) : Prop :=
  ∃ c out img, fs !! input_path_of t = Some (File c) ∧ c ≠ [] ∧
    remove c = Return out ∧ out ≠ [] ∧ image_open_rgba out = Return img ∧
    (image_save Image image_encode os_error denegado img (output_path_of t) "WEBP" true 100%Z fs).2
      = Raise e.

End Lote.

(** Counting a list of results, one line each, from index [i] on. *)
Fixpoint contar_todos (total i : nat) (rs : list string) (st : Estado) : Estado :=
  match rs with
  | [] => st
  | r :: rs' => contar_todos total (S i) rs' (contar i total r st)
  end.

(** The results counted so far. *)
Definition cuenta (st : Estado) : nat :=
  resultados_exitosos st + resultados_con_error st.

(** [fs'] keeps the files at the paths [entradas] of [fs], and the same
    paths are directories in both. *)
Definition conserva (entradas : list string) (fs fs' : filesystem) : Prop :=
  (∀ p, p ∈ entradas → fs' !! p = fs !! p) ∧
  (∀ p, is_dir (fs' !! p) = is_dir (fs !! p)).

(** The tasks of a batch read paths of [entradas] and write outside. *)
Definition separadas (entradas : list string) (tareas : list Task) : Prop :=
  Forall (λ t, input_path_of t ∈ entradas ∧ output_path_of t ∉ entradas) tareas.

(** What [os.listdir] returns: names, without a separator. *)
Definition es_nombre (f : string) : Prop := Str.has_char sep f = false.

(** ** A concrete world for the examples *)

Module Ejemplo.

Definition Image : Type := bytes.

Definition e_modelo : excepcion :=
  Excepcion "onnxruntime: inference failed" "Traceback (most recent call last): remove".
Definition e_decodificar : excepcion :=
  Excepcion "cannot identify image file"
    "Traceback (most recent call last): line 87, in procesar_imagen".
Definition e_codificar : excepcion :=
  Excepcion "cannot write mode RGBA as WEBP"
    "Traceback (most recent call last): line 96, in procesar_imagen".
Definition e_pool : excepcion :=
  Excepcion "A process in the process pool was terminated abruptly" "".

(** Returns its input; raises on a leading [0xff], returns nothing on a
    leading [0x00]. *)
Definition remove (b : bytes) : outcome bytes :=
  match b with
  | Byte.xff :: _ => Raise e_modelo
  | Byte.x00 :: _ => Return []
  | _ => Return b
  end.

(** Raises on a leading [0xfe]. *)
Definition image_open_rgba (b : bytes) : outcome Image :=
  match b with
  | Byte.xfe :: _ => Raise e_decodificar
  | _ => Return b
  end.

(** Raises on a leading [0xfd], encodes to nothing on a leading [0xfc]. *)
Definition image_encode (img : Image) (fmt : string) (lossless : bool)
    (quality : Z) : outcome bytes :=
  match img with
  | Byte.xfd :: _ => Raise e_codificar
  | Byte.xfc :: _ => Return []
  | _ => Return img
  end.

Definition os_error (f : os_fault) (p : string) : excepcion :=
  match f with
  | ENOENT => Excepcion ("[Errno 2] No such file or directory: " +:+ p) "Traceback"
  | EISDIR => Excepcion ("[Errno 21] Is a directory: " +:+ p) "Traceback"
  end.

(** Nothing can be written under [/solo_lectura]. *)
Definition denegado (p : string) : option excepcion :=
  if Str.startswith p "/solo_lectura"
  then Some (Excepcion ("[Errno 13] Permission denied: " +:+ p) "Traceback")
  else None.

Definition procesar_imagen :=
  procesar_imagen Image remove image_open_rgba image_encode os_error denegado.

Definition procesar_imagen_msg :=
  procesar_imagen_msg Image remove image_open_rgba image_encode os_error denegado.

Definition mensaje_en :=
  mensaje_en Image remove image_open_rgba image_encode os_error denegado.

Definition resultado_en :=
  resultado_en Image remove image_open_rgba image_encode os_error denegado.

Definition secuencial :=
  secuencial Image remove image_open_rgba image_encode os_error denegado.

Definition main :=
  main Image remove image_open_rgba image_encode os_error denegado.

(** The folder [/in] and its output folder, both empty. *)
Definition fs_carpetas : filesystem :=
  <["/in" := Dir 4096]> (<["/in/imagenes_sin_fondo" := Dir 4096]> ∅).

(** Two pictures in [/in]. *)
Definition fs_dos : filesystem :=
  <["/in/a.jpg" := File [Byte.x01]]> (<["/in/b.jpg" := File [Byte.x02]]> fs_carpetas).

(** The first picture is missing, the second is there. *)
Definition fs_uno : filesystem := <["/in/b.jpg" := File [Byte.x02]]> fs_carpetas.

(** One picture the decoder rejects, one the encoder rejects, one the
    model rejects. *)
Definition fs_decodificar : filesystem := <["/in/a.jpg" := File [Byte.xfe]]> fs_carpetas.
Definition fs_codificar : filesystem := <["/in/a.jpg" := File [Byte.xfd]]> fs_carpetas.
Definition fs_modelo : filesystem := <["/in/a.jpg" := File [Byte.xff]]> fs_carpetas.

(** The model rejects the first picture, the second goes through. *)
Definition fs_rechazo : filesystem :=
  <["/in/a.jpg" := File [Byte.xff]]> (<["/in/b.jpg" := File [Byte.x02]]> fs_carpetas).

(** A picture in [/in], and no output folder. *)
Definition fs_sin_carpeta : filesystem :=
  <["/in/a.jpg" := File [Byte.x01]]> (<["/in" := Dir 4096]> ∅).

(** A decoder that rejects every picture the way the model of this world
    rejects one. *)
Definition image_open_rgba_roto (b : bytes) : outcome Image := Raise e_modelo.

Definition tarea_a : Task := ("/in", "/in/imagenes_sin_fondo", "a.jpg").

(** The state [main] starts its loops from. *)
Definition st_inicial (fs : filesystem) : Estado :=
  {| est_fs := fs; resultados_exitosos := 0; resultados_con_error := 0;
     est_stdout := [] |}.

(** The pool finishes the first task, then a worker dies. *)
Definition pool_muere : PoolRun := {| completadas := [0]; fallo := Some e_pool |}.

(** The second task finishes before the first. *)
Definition pool_invertido : PoolRun := {| completadas := [1; 0]; fallo := None |}.

(** The counters and the lines of a run that reached its summary. *)
Definition resumen_de (r : MainResult) : option (nat * nat * list Linea) :=
  match r with
  | Resumen st => Some (resultados_exitosos st, resultados_con_error st, est_stdout st)
  | _ => None
  end.

End Ejemplo.

(** ** More of [main] and of the functions around it *)

(** The closing line of the summary of [main]. *)
Definition mensaje_final (st : Estado) : string :=
  if 0 <? resultados_exitosos st
  then nl +:+ "🎉 ¡Procesamiento completado!"
  else nl +:+ "⚠️ No se pudo procesar ninguna imagen.".

(** The lines whose text holds the check mark, and the others. *)
Definition con_marca (l : Linea) : Prop := Str.contains "✅" (li_texto l) = true.

(** The counters are the numbers of lines with and without the mark. *)
Definition cuenta_lineas (st : Estado) : Prop :=
  resultados_exitosos st = length (filter con_marca (est_stdout st)) ∧
  resultados_con_error st = length (filter (λ l, ¬ con_marca l) (est_stdout st)).

(** [fs'] differs from [fs] at paths of [salidas] only, where it may hold
    a new file; no entry of [fs] is gone and directories are the same. *)
Definition solo_escribe (salidas : list string) (fs fs' : filesystem) : Prop :=
  (∀ p, p ∉ salidas → fs' !! p = fs !! p) ∧
  (∀ p, is_dir (fs' !! p) = is_dir (fs !! p)) ∧
  (∀ p, is_Some (fs !! p) → is_Some (fs' !! p)).

Section Estables.

Variable Image : Type.
Variable remove : bytes → outcome bytes.
Variable image_open_rgba : bytes → outcome Image.
Variable image_encode : Image → string → bool → Z → outcome bytes.
Variable os_error : os_fault → string → excepcion.
Variable denegado : string → option excepcion.

(** A property of the state of [main] that counting a result keeps and
    that a run of [procesar_imagen] on a task of the batch keeps. *)
Definition estable (tareas : list Task) (total : nat) (I : Estado → Prop) : Prop :=
  (∀ i r st, I st → I (contar i total r st)) ∧
  (∀ t st, t ∈ tareas → I st →
     I (con_fs (procesar_imagen_msg Image remove image_open_rgba image_encode
                  os_error denegado t (est_fs st)).1 st)).

End Estables.

(** What [get_resource_path] reads of the interpreter: [sys.frozen] when
    set, [sys._MEIPASS] when there, [sys.executable], and
    [os.path.abspath(__file__)]. *)
Record Sys := {
  sys_frozen : bool;
  sys_meipass : option string;
  sys_executable : string;
  file_abspath : string
}.

(** [get_resource_path()] *)
Definition get_resource_path (sys : Sys) : string :=
  if sys_frozen sys then
    match sys_meipass sys with
    | Some m => m
    | None => path_dirname (sys_executable sys)
    end
  else path_dirname (file_abspath sys).

(** The file system and [os.environ]. *)
Record Mundo := { m_fs : filesystem; m_env : gmap string string }.

(** How [main] ends: one of its early returns, or the batch. *)
Inductive Salida :=
| RutaVacia
| NoEsCarpeta
| ErrorCarpetaSalida (e : excepcion)
| SinPermisos
| Lote (r : MainResult).

(** The file system a batch leaves, [fs] when it did not start. *)
Definition fs_final (fs : filesystem) (r : MainResult) : filesystem :=
  match r with
  | SinImagenes => fs
  | Resumen st | NoCapturada _ st | Colgado st => est_fs st
  end.

Section Entorno.

Variable Image : Type.
Variable remove : bytes → outcome bytes.
Variable image_open_rgba : bytes → outcome Image.
Variable image_encode : Image → string → bool → Z → outcome bytes.
Variable os_error : os_fault → string → excepcion.
(** The [FileExistsError] of [mkdir] on a path that holds a file. *)
Variable e_existe : string → excepcion.
(** The error, if any, with which the system refuses to create a path or
    to open it for writing: permissions, a read-only volume. *)
Variable denegado : string → option excepcion.
(** The size a new directory reports. *)
Variable tam_dir : Z.
(** The error, if any, with which the system refuses to remove a file. *)
Variable no_borrable : string → option excepcion.

(** [os.makedirs(p, exist_ok=True)], for a path whose parent exists, as it
    does for the two paths the program passes: a directory that is there is
    left alone, a file in its place is an error. *)
Definition makedirs_exist_ok (p : string) : Py () :=
  λ fs, match fs !! p with
        | Some (Dir _) => (fs, Return ())
        | Some (File _) => (fs, Raise (e_existe p))
        | None =>
            match denegado p with
            | Some e => (fs, Raise e)
            | None => (<[p := Dir tam_dir]> fs, Return ())
            end
        end.

(** [with open(p, 'w') as f: f.write(texto)] *)
Definition escribir_texto (p : string) (texto : bytes) : Py () :=
  λ fs, match abrir_escritura os_error denegado p fs with
        | Some e => (fs, Raise e)
        | None => (<[p := File texto]> fs, Return ())
        end.

(** [os.remove(p)] *)
Definition os_remove (p : string) : Py () :=
  λ fs, match fs !! p with
        | Some (File _) =>
            match no_borrable p with
            | Some e => (fs, Raise e)
            | None => (delete p fs, Return ())
            end
        | Some (Dir _) => (fs, Raise (os_error EISDIR p))
        | None => (fs, Raise (os_error ENOENT p))
        end.

(** [verificar_permisos(folder_path)] *)
Definition verificar_permisos (folder_path : string) : Py bool :=
  try_except
    (let test_file := path_join folder_path "test_write.tmp" in
     _ ← escribir_texto test_file [Byte.x74; Byte.x65; Byte.x73; Byte.x74];
     _ ← os_remove test_file;
     mret true)
    (λ e, mret false).

(** [setup_u2net_path()] *)
Definition setup_u2net_path (sys : Sys) (m : Mundo) : Mundo * outcome string :=
  let base_path := get_resource_path sys in
  let u2net_path := path_join base_path "u2net" in
  match makedirs_exist_ok u2net_path (m_fs m) with
  | (fs', Raise e) => ({| m_fs := fs'; m_env := m_env m |}, Raise e)
  | (fs', Return _) =>
      ({| m_fs := fs'; m_env := <["U2NET_HOME" := u2net_path]> (m_env m) |},
       Return u2net_path)
  end.

(** [main()], whole: [entrada] is the line [input(...)] returns, [listdir]
    what [os.listdir(input_folder)] returns and [p] the run of the pool.  An
    exception of [setup_u2net_path] is printed and [main] goes on. *)
Definition main_completo (sys : Sys) (entrada : string) (listdir : list string)
    (p : PoolRun) (m : Mundo) : Mundo * Salida :=
  let m1 := (setup_u2net_path sys m).1 in
  let input_folder := strip_char comilla (Str.strip entrada) in
  if String.eqb input_folder EmptyString then (m1, RutaVacia) else
  if negb (is_dir (m_fs m1 !! input_folder)) then (m1, NoEsCarpeta) else
  let output_folder := path_join input_folder "imagenes_sin_fondo" in
  match makedirs_exist_ok output_folder (m_fs m1) with
  | (fs2, Raise e) => ({| m_fs := fs2; m_env := m_env m1 |}, ErrorCarpetaSalida e)
  | (fs2, Return _) =>
      match verificar_permisos output_folder fs2 with
      | (fs3, Return true) =>
          let r := main Image remove image_open_rgba image_encode os_error denegado
                     input_folder listdir p fs3 in
          ({| m_fs := fs_final fs3 r; m_env := m_env m1 |}, Lote r)
      | (fs3, _) => ({| m_fs := fs3; m_env := m_env m1 |}, SinPermisos)
      end
  end.

End Entorno.

(** ** A concrete environment for the examples *)

Module EjemploEntorno.

Definition e_existe (p : string) : excepcion :=
  Excepcion ("[Errno 17] File exists: " +:+ p) "Traceback".

Definition tam_dir : Z := 4096.

(** Nothing can be removed under [/pegado]. *)
Definition no_borrable (p : string) : option excepcion :=
  if Str.startswith p "/pegado"
  then Some (Excepcion ("[Errno 1] Operation not permitted: " +:+ p) "Traceback")
  else None.

(** The program run from source, as [/app/limpiarfondo.py]. *)
Definition sys_script : Sys :=
  {| sys_frozen := false; sys_meipass := None;
     sys_executable := "/usr/bin/python3";
     file_abspath := "/app/limpiarfondo.py" |}.

(** A folder [/in] with two pictures and no output folder yet, and an
    empty environment. *)
Definition mundo : Mundo :=
  {| m_fs := <["/in/a.jpg" := File [Byte.x01]]>
               (<["/in/b.jpg" := File [Byte.x02]]> (<["/in" := Dir 4096]> ∅));
     m_env := ∅ |}.


(** An output folder in which a file named like the probe sits. *)
Definition fs_sonda : filesystem :=
  <["/in/imagenes_sin_fondo/test_write.tmp" := File [Byte.x07]]> Ejemplo.fs_carpetas.

(** A folder in which files can be written and not removed. *)
Definition fs_pegado : filesystem := <["/pegado" := Dir 4096]> ∅.

Definition verificar_permisos :=
  verificar_permisos Ejemplo.os_error Ejemplo.denegado no_borrable.

Definition setup_u2net_path := setup_u2net_path e_existe Ejemplo.denegado tam_dir.

Definition main_completo :=
  main_completo Ejemplo.Image Ejemplo.remove Ejemplo.image_open_rgba
    Ejemplo.image_encode Ejemplo.os_error e_existe Ejemplo.denegado tam_dir
    no_borrable.

End EjemploEntorno.

(** * Properties *)

Example splitext_jpg : splitext "foto.JPG" = ("foto", ".JPG").
Proof. reflexivity. Qed.
Example splitext_hidden : splitext ".bashrc" = (".bashrc", "").
Proof. reflexivity. Qed.
Example splitext_two : splitext "a.tar.gz" = ("a.tar", ".gz").
Proof. reflexivity. Qed.
Example splitext_dir : splitext "imagenes_sin_fondo" = ("imagenes_sin_fondo", "").
Proof. reflexivity. Qed.
Example stem_two : stem "a.tar.gz" = "a.tar".
Proof. reflexivity. Qed.
Example stem_hidden : stem ".jpg" = ".jpg".
Proof. reflexivity. Qed.
Example join_plain : path_join "/in" "a.jpg" = "/in/a.jpg".
Proof. reflexivity. Qed.
Example join_slash : path_join "/in/" "a.jpg" = "/in/a.jpg".
Proof. reflexivity. Qed.
Example contains_mark : Str.contains "✅" "❌ Error con ✅.jpg" = true.
Proof. reflexivity. Qed.
Example buscar_ejemplo :
  buscar_archivos ["a.jpg"; "b.txt"; "c.png"; "imagenes_sin_fondo"; "D.TIFF"]
  = ["a.jpg"; "c.png"; "D.TIFF"].
Proof. reflexivity. Qed.


(** ** Strings and paths *)

Lemma app_cons (c : ascii) (s t : string) : String c s +:+ t = String c (s +:+ t).
Proof. reflexivity. Qed.

Lemma app_empty_l (t : string) : "" +:+ t = t.
Proof. reflexivity. Qed.

Lemma app_assoc_str (a b c : string) : (a +:+ b) +:+ c = a +:+ (b +:+ c).
Proof. induction a as [|x a IH]; [reflexivity|]. rewrite !app_cons. by rewrite IH. Qed.

Lemma prefix_empty (s : string) : String.prefix "" s = true.
Proof. by destruct s. Qed.

Lemma prefix_app_r (x s b : string) :
  String.prefix x s = true → String.prefix x (s +:+ b) = true.
Proof.
  revert s. induction x as [|c x IH]; intros s H.
  - apply prefix_empty.
  - destruct s as [|d s]; [discriminate|]. rewrite app_cons. cbn in *.
    destruct (ascii_dec c d); [auto|discriminate].
Qed.

Lemma contains_app_r (x s b : string) :
  Str.contains x s = true → Str.contains x (s +:+ b) = true.
Proof.
  induction s as [|d s IH]; cbn [Str.contains]; intros H.
  - rewrite orb_false_r in H. destruct x; [|discriminate].
    destruct b; reflexivity.
  - rewrite app_cons. cbn [Str.contains].
    apply orb_true_iff in H as [H|H]; apply orb_true_iff.
    + left. by apply (prefix_app_r x (String d s) b).
    + right. auto.
Qed.

Lemma contains_app_l (x a s : string) :
  Str.contains x s = true → Str.contains x (a +:+ s) = true.
Proof.
  intros H. induction a as [|d a IH]; [exact H|].
  rewrite app_cons. cbn [Str.contains]. rewrite IH. apply orb_true_r.
Qed.

(** A text that embeds [s] contains whatever [s] contains. *)
Lemma contains_embedded (x a s b : string) :
  Str.contains x s = true → Str.contains x (a +:+ s +:+ b) = true.
Proof. intros H. by apply contains_app_l, contains_app_r. Qed.

Lemma has_char_app (c : ascii) (a b : string) :
  Str.has_char c (a +:+ b) = Str.has_char c a || Str.has_char c b.
Proof.
  induction a as [|d a IH]; [reflexivity|].
  rewrite app_cons. cbn [Str.has_char]. rewrite IH. by rewrite orb_assoc.
Qed.

Lemma startswith_has_char (c : ascii) (s : string) :
  Str.has_char c s = false → Str.startswith s (String c "") = false.
Proof.
  destruct s as [|d s]; [reflexivity|]. cbn. intros H.
  apply orb_false_iff in H as [H _]. apply Ascii.eqb_neq in H.
  destruct (ascii_dec c d); [congruence|reflexivity].
Qed.

Lemma startswith_app (c : ascii) (a b : string) :
  Str.startswith a (String c "") = false →
  Str.startswith b (String c "") = false →
  Str.startswith (a +:+ b) (String c "") = false.
Proof.
  destruct a as [|d a]; [by rewrite app_empty_l|]. intros H _.
  rewrite app_cons. unfold Str.startswith in *. cbn in *.
  destruct (ascii_dec c d); [|reflexivity].
  by rewrite prefix_empty in H.
Qed.

Lemma last_char_app (a : string) (c : ascii) (b : string) :
  Str.last_char (a +:+ String c b) = Str.last_char (String c b).
Proof.
  induction a as [|d a IH]; [reflexivity|].
  rewrite app_cons, <- IH.
  destruct (a +:+ String c b) eqn:E; [|reflexivity].
  destruct a; discriminate.
Qed.

Lemma has_char_substring (c : ascii) (n m : nat) (s : string) :
  Str.has_char c s = false → Str.has_char c (String.substring n m s) = false.
Proof.
  revert n m. induction s as [|d s IH]; intros n m H.
  - destruct n, m; reflexivity.
  - cbn in H. apply orb_false_iff in H as [Hd Hs].
    destruct n as [|n].
    + destruct m as [|m]; [reflexivity|]. cbn. rewrite Hd. by apply IH.
    + cbn. by apply IH.
Qed.

Lemma split_has_char (c : ascii) (s : string) :
  Forall (λ x, Str.has_char c x = false) (Str.split c s).
Proof.
  induction s as [|d s IH]; cbn.
  - by repeat constructor.
  - destruct (Ascii.eqb d c) eqn:E.
    + by constructor.
    + destruct (Str.split c s) as [|x xs]; [by repeat constructor; cbn; rewrite E|].
      inversion IH; subst. constructor; [|done]. cbn. by rewrite E.
Qed.

Lemma path_name_has_char (s : string) : Str.has_char sep (path_name s) = false.
Proof.
  unfold path_name.
  assert (H : Forall (λ x, Str.has_char sep x = false)
    (List.filter (λ c, negb (String.eqb c "") && negb (String.eqb c "."))
       (Str.split sep s))).
  { apply Forall_forall. intros x Hx.
    apply list_elem_of_In, filter_In in Hx as [Hx _].
    pose proof (split_has_char sep s) as Hs.
    rewrite Forall_forall in Hs. apply Hs. by apply list_elem_of_In. }
  induction H as [|x [|y l] Hx H IH]; [reflexivity|exact Hx|exact IH].
Qed.

Lemma stem_has_char (s : string) : Str.has_char sep (stem s) = false.
Proof.
  unfold stem. case_match; [|apply path_name_has_char].
  apply has_char_substring, path_name_has_char.
Qed.

Lemma path_join_relative (a b : string) :
  Str.startswith b (String sep "") = false → path_join a b = dir_prefix a +:+ b.
Proof.
  intros H. unfold path_join, dir_prefix. rewrite H.
  destruct (_ || _); [reflexivity|]. by rewrite app_assoc_str.
Qed.

Lemma output_filename_relative (f : string) :
  Str.startswith (output_filename_of f) (String sep "") = false.
Proof.
  unfold output_filename_of. apply startswith_app; [|reflexivity].
  apply startswith_has_char, stem_has_char.
Qed.

Lemma dir_prefix_output_folder (a : string) :
  dir_prefix (path_join a "imagenes_sin_fondo")
  = dir_prefix a +:+ "imagenes_sin_fondo/".
Proof.
  rewrite path_join_relative by reflexivity.
  unfold dir_prefix at 1.
  replace (String.eqb (dir_prefix a +:+ "imagenes_sin_fondo") "") with false.
  2: { symmetry. apply String.eqb_neq. destruct (dir_prefix a); discriminate. }
  unfold Str.endswith_char.
  change "imagenes_sin_fondo" with (String "i" "magenes_sin_fondo").
  rewrite last_char_app. cbn [orb]. cbn.
  rewrite app_assoc_str. reflexivity.
Qed.

(** No file of the input folder is a file [procesar_imagen] writes: the
    outputs live one level down, in [imagenes_sin_fondo]. *)
Lemma entrada_no_es_salida (input_folder f f' : string) :
  es_nombre f →
  path_join input_folder f ≠
  path_join (path_join input_folder "imagenes_sin_fondo") (output_filename_of f').
Proof.
  intros Hf E.
  rewrite (path_join_relative _ f) in E by by apply startswith_has_char.
  rewrite (path_join_relative _ (output_filename_of f')) in E
    by apply output_filename_relative.
  rewrite dir_prefix_output_folder, app_assoc_str in E.
  apply String.app_inj in E. unfold es_nombre in Hf.
  rewrite E, has_char_app in Hf. discriminate.
Qed.

(** ** The item processor *)

Ltac py_unfold :=
  unfold procesar_imagen, procesar_imagen_msg, procesar_imagen_body,
    try_except, mbind, mret, py_mbind, py_mret, py_bind, py_ret, py_call,
    os_path_exists, read_file, os_path_getsize, image_save.

Ltac py_hyp :=
  match goal with
  | H : ?l = _ |- context [?l] => rewrite H
  | |- context [bool_decide (is_Some (Some ?x))] =>
      rewrite (bool_decide_true (is_Some (Some x))) by eauto
  | |- context [bool_decide (is_Some (@None ?A))] =>
      rewrite (bool_decide_false (is_Some (@None A)))
        by (intros [? ?]; congruence)
  | |- context [<[?k:=?v]> ?m !! ?k] => rewrite (lookup_insert_eq m k v)
  | H : ?x ≠ [] |- context [bool_decide (?x = [])] =>
      rewrite (bool_decide_false (x = [])) by exact H
  | |- context [bool_decide (@nil ?A = [])] =>
      rewrite (bool_decide_true (@nil A = [])) by reflexivity
  end.

Ltac py_run :=
  py_unfold;
  repeat first [ progress lazy beta iota zeta delta [negb andb fst snd] | py_hyp ].

Section Procesar.

Variable Image : Type.
Variable remove : bytes → outcome bytes.
Variable image_open_rgba : bytes → outcome Image.
Variable image_encode : Image → string → bool → Z → outcome bytes.
Variable os_error : os_fault → string → excepcion.
Variable denegado : string → option excepcion.

Abbreviation procesar_msg :=
  (procesar_imagen_msg Image remove image_open_rgba image_encode os_error denegado).
Abbreviation procesar :=
  (procesar_imagen Image remove image_open_rgba image_encode os_error denegado).
Abbreviation mensaje :=
  (mensaje_en Image remove image_open_rgba image_encode os_error denegado).
Abbreviation resultado :=
  (resultado_en Image remove image_open_rgba image_encode os_error denegado).

(** A [try] whose handler returns, returns. *)
Lemma try_except_returns {A} (body : Py A) (handler : excepcion → Py A) fs :
  (∀ e fs1, ∃ fs2 a, handler e fs1 = (fs2, Return a)) →
  ∃ fs' a, try_except body handler fs = (fs', Return a).
Proof.
  intros Hh. unfold try_except. destruct (body fs) as [fs1 [a|e]]; eauto.
Qed.

Lemma procesar_msg_returns (t : Task) (fs : filesystem) :
  ∃ fs' m, procesar_msg t fs = (fs', Return m).
Proof.
  unfold procesar_imagen_msg. apply try_except_returns.
  intros e fs1. by eexists _, _.
Qed.

Lemma procesar_msg_mensaje (t : Task) (fs : filesystem) :
  procesar_msg t fs = ((procesar_msg t fs).1, Return (mensaje fs t)).
Proof.
  unfold mensaje_en. destruct (procesar_msg_returns t fs) as (fs' & m & ->).
  reflexivity.
Qed.

Lemma procesar_resultado (t : Task) (fs : filesystem) :
  procesar t fs = ((procesar_msg t fs).1, Return (resultado fs t)).
Proof.
  unfold procesar_imagen, resultado_en, mbind, py_mbind, py_bind.
  rewrite procesar_msg_mensaje. reflexivity.
Qed.

Lemma procesar_no_encontrado inf outf f fs :
  fs !! path_join inf f = None →
  procesar_msg (inf, outf, f) fs = (fs, Return (NoEncontrado f)).
Proof. intros H. by py_run. Qed.

Lemma procesar_es_directorio inf outf f fs sz :
  fs !! path_join inf f = Some (Dir sz) →
  procesar_msg (inf, outf, f) fs
  = (fs, Return (ErrorCon f (os_error EISDIR (path_join inf f)))).
Proof. intros H. by py_run. Qed.

Lemma procesar_sin_datos inf outf f fs :
  fs !! path_join inf f = Some (File []) →
  procesar_msg (inf, outf, f) fs = (fs, Return (SinDatos f)).
Proof. intros H. by py_run. Qed.

Lemma procesar_remove_lanza inf outf f fs c e :
  fs !! path_join inf f = Some (File c) → c ≠ [] →
  remove c = Raise e →
  procesar_msg (inf, outf, f) fs = (fs, Return (ErrorCon f e)).
Proof. intros H Hc Hr. by py_run. Qed.

Lemma procesar_remove_vacio inf outf f fs c :
  fs !! path_join inf f = Some (File c) → c ≠ [] →
  remove c = Return [] →
  procesar_msg (inf, outf, f) fs = (fs, Return (RembgVacio f)).
Proof. intros H Hc Hr. by py_run. Qed.

Lemma procesar_decodificar_lanza inf outf f fs c out e :
  fs !! path_join inf f = Some (File c) → c ≠ [] →
  remove c = Return out → out ≠ [] →
  image_open_rgba out = Raise e →
  procesar_msg (inf, outf, f) fs = (fs, Return (ErrorCon f e)).
Proof. intros H Hc Hr Ho Hd. by py_run. Qed.

Lemma procesar_guardar_lanza inf outf f fs c out img e :
  fs !! path_join inf f = Some (File c) → c ≠ [] →
  remove c = Return out → out ≠ [] →
  image_open_rgba out = Return img →
  (image_save Image image_encode os_error denegado img
     (path_join outf (output_filename_of f)) "WEBP" true 100%Z fs).2 = Raise e →
  procesar_msg (inf, outf, f) fs
  = ((image_save Image image_encode os_error denegado img
        (path_join outf (output_filename_of f)) "WEBP" true 100%Z fs).1,
     Return (ErrorCon f e)).
Proof.
  intros H Hc Hr Ho Hd Hs. unfold output_filename_of in *.
  destruct (image_save _ _ _ _ _ _ _ _ _ fs) as [fs1 o] eqn:E.
  cbn in Hs. subst o. unfold image_save in E. py_run. reflexivity.
Qed.

Lemma procesar_escrito inf outf f fs c out img data :
  fs !! path_join inf f = Some (File c) → c ≠ [] →
  remove c = Return out → out ≠ [] →
  image_open_rgba out = Return img →
  abrir_escritura os_error denegado (path_join outf (output_filename_of f)) fs
  = None →
  image_encode img "WEBP" true 100%Z = Return data →
  procesar_msg (inf, outf, f) fs =
    (<[path_join outf (output_filename_of f) := File data]> fs,
     Return (if bool_decide (data = []) then ErrorGuardar f
             else Exito f (output_filename_of f))).
Proof.
  intros Hin Hc Hr Ho Hd Hab He. unfold output_filename_of in *.
  py_run. destruct data; reflexivity.
Qed.

(** A path that can be opened for writing is no directory. *)
Lemma abrir_escritura_no_dir (p : string) (fs : filesystem) :
  abrir_escritura os_error denegado p fs = None → is_dir (fs !! p) = false.
Proof. unfold abrir_escritura. by destruct (is_dir (fs !! p)). Qed.

(** Opening a path for writing looks at whether the path and the folder
    that holds it are directories, at nothing else of the file system. *)
Lemma abrir_escritura_frame (p : string) (fs1 fs2 : filesystem) :
  (∀ q, is_dir (fs2 !! q) = is_dir (fs1 !! q)) →
  abrir_escritura os_error denegado p fs2 = abrir_escritura os_error denegado p fs1.
Proof. intros H. unfold abrir_escritura, hay_carpeta. by rewrite !H. Qed.

(** [save] returns exactly when the path can be opened and the encoder
    returns, and then the file holds what the encoder gave. *)
Lemma image_save_returns (img : Image) (p fmt : string) (l : bool) (q : Z)
    (fs fs1 : filesystem) :
  image_save Image image_encode os_error denegado img p fmt l q fs
  = (fs1, Return ()) ↔
  abrir_escritura os_error denegado p fs = None ∧
  ∃ data, image_encode img fmt l q = Return data ∧ fs1 = <[p := File data]> fs.
Proof.
  unfold image_save. destruct (abrir_escritura _ _ p fs) as [e|].
  { split; [discriminate|]. by intros [? _]. }
  destruct (image_encode img fmt l q) as [data|e].
  - split.
    + intros [= <-]. split; [done|]. by exists data.
    + intros (_ & d & [= <-] & ->). done.
  - split; [discriminate|]. by intros (_ & d & ? & _).
Qed.

End Procesar.

(** ** What a run of the item processor reads and writes *)

Section Marco.

Variable Image : Type.
Variable remove : bytes → outcome bytes.
Variable image_open_rgba : bytes → outcome Image.
Variable image_encode : Image → string → bool → Z → outcome bytes.
Variable os_error : os_fault → string → excepcion.
Variable denegado : string → option excepcion.

Abbreviation procesar_msg :=
  (procesar_imagen_msg Image remove image_open_rgba image_encode os_error denegado).
Abbreviation procesar :=
  (procesar_imagen Image remove image_open_rgba image_encode os_error denegado).
Abbreviation mensaje :=
  (mensaje_en Image remove image_open_rgba image_encode os_error denegado).
Abbreviation resultado :=
  (resultado_en Image remove image_open_rgba image_encode os_error denegado).

(** The only path written is the output path, and only with a file where
    no directory stands. *)
Lemma procesar_msg_fs (t : Task) (fs : filesystem) :
  (procesar_msg t fs).1 = fs ∨
  (is_dir (fs !! output_path_of t) = false ∧
   ∃ d, (procesar_msg t fs).1 = <[output_path_of t := File d]> fs).
Proof.
  destruct t as [[inf outf] f]. unfold output_path_of, output_filename_of.
  py_unfold.
  repeat (case_match; simplify_eq/=; eauto).
  all: right; split; [|by eexists].
  all: match goal with
       | H : abrir_escritura _ _ _ _ = None |- _ =>
           apply abrir_escritura_no_dir in H
       end.
  all: repeat match goal with
         | H0 : ?m !! ?k = _, H : context [?m !! ?k] |- _ => rewrite H0 in H
         end; done.
Qed.

Lemma procesar_msg_conserva (entradas : list string) (t : Task) (fs : filesystem) :
  output_path_of t ∉ entradas → conserva entradas fs (procesar_msg t fs).1.
Proof.
  intros Hout. destruct (procesar_msg_fs t fs) as [->|(Hd & d & ->)].
  - by split.
  - split.
    + intros p Hp. apply lookup_insert_ne. intros E. apply Hout. by rewrite E.
    + intros p. destruct (decide (output_path_of t = p)) as [<-|Hne].
      * by rewrite lookup_insert_eq, Hd.
      * by rewrite lookup_insert_ne.
Qed.

(** The message depends on the input file and on which paths are
    directories, on nothing else of the file system. *)
Lemma procesar_msg_frame (t : Task) (fs1 fs2 : filesystem) :
  fs2 !! input_path_of t = fs1 !! input_path_of t →
  (∀ q, is_dir (fs2 !! q) = is_dir (fs1 !! q)) →
  (procesar_msg t fs2).2 = (procesar_msg t fs1).2.
Proof.
  destruct t as [[inf outf] f].
  unfold input_path_of, output_path_of, output_filename_of. intros Hin Hdir.
  destruct (fs1 !! path_join inf f) as [[c|sz]|] eqn:E1;
    [|by py_run|by py_run].
  destruct (decide (c = [])) as [->|Hc]; [by py_run|].
  destruct (remove c) as [out|e] eqn:Er; [|by py_run].
  destruct (decide (out = [])) as [->|Ho]; [by py_run|].
  destruct (image_open_rgba out) as [img|e] eqn:Ed; [|by py_run].
  pose proof (abrir_escritura_frame os_error denegado
    (path_join outf (stem f +:+ "_sin_fondo.webp")) fs1 fs2 Hdir) as Hab.
  destruct (abrir_escritura os_error denegado
              (path_join outf (stem f +:+ "_sin_fondo.webp")) fs1) as [e|] eqn:Ea;
    [by py_run|].
  destruct (image_encode img "WEBP" true 100%Z) as [data|e] eqn:Ee;
    py_run; try done.
  by destruct (Z.of_nat (length data) >? 0)%Z.
Qed.

Lemma conserva_refl (entradas : list string) (fs : filesystem) :
  conserva entradas fs fs.
Proof. by split. Qed.

Lemma conserva_trans (entradas : list string) (fs1 fs2 fs3 : filesystem) :
  conserva entradas fs1 fs2 → conserva entradas fs2 fs3 → conserva entradas fs1 fs3.
Proof.
  intros [H1 D1] [H2 D2]. split.
  - intros p Hp. by rewrite H2, H1.
  - intros p. by rewrite D2, D1.
Qed.

(** On a file system that kept the inputs, a task with its input among
    them gets the message it got before. *)
Lemma mensaje_conserva (entradas : list string) (t : Task) (fs fs' : filesystem) :
  input_path_of t ∈ entradas → conserva entradas fs fs' →
  mensaje fs' t = mensaje fs t.
Proof.
  intros Hin [Hk Hd]. unfold mensaje_en.
  rewrite (procesar_msg_frame t fs fs'); [reflexivity|by apply Hk|exact Hd].
Qed.

End Marco.

(** ** Candidate files and counters *)

Lemma buscar_archivos_acc (listdir acc : list string) :
  fold_left (λ archivos f, if es_imagen f then archivos ++ [f] else archivos)
    listdir acc
  = acc ++ filter (λ f, es_imagen f = true) listdir.
Proof.
  revert acc. induction listdir as [|f l IH]; intros acc; cbn [fold_left].
  - by rewrite filter_nil, app_nil_r.
  - rewrite IH, filter_cons. destruct (es_imagen f) eqn:E.
    + rewrite decide_True by done. by rewrite <- app_assoc.
    + rewrite decide_False by done. reflexivity.
Qed.

Lemma buscar_archivos_filter (listdir : list string) :
  buscar_archivos listdir = filter (λ f, es_imagen f = true) listdir.
Proof. unfold buscar_archivos. by rewrite buscar_archivos_acc. Qed.

Lemma buscar_archivos_nombres (listdir : list string) :
  Forall es_nombre listdir → Forall es_nombre (buscar_archivos listdir).
Proof.
  rewrite buscar_archivos_filter, !Forall_forall. intros H f Hf.
  apply list_elem_of_filter in Hf as [_ Hf]. auto.
Qed.

Lemma contar_cuenta i total r st : cuenta (contar i total r st) = S (cuenta st).
Proof. unfold contar, cuenta. destruct (Str.contains _ r); cbn; lia. Qed.

Lemma contar_stdout i total r st :
  est_stdout (contar i total r st)
  = est_stdout st ++ [{| li_i := i; li_total := total; li_texto := r |}].
Proof. unfold contar. by destruct (Str.contains _ r). Qed.

Lemma contar_fs i total r st : est_fs (contar i total r st) = est_fs st.
Proof. unfold contar. by destruct (Str.contains _ r). Qed.

Lemma contar_con_fs i total r fs st :
  contar i total r (con_fs fs st) = con_fs fs (contar i total r st).
Proof. unfold contar, con_fs. by destruct (Str.contains _ r). Qed.

Lemma con_fs_con_fs fs fs' st : con_fs fs (con_fs fs' st) = con_fs fs st.
Proof. reflexivity. Qed.

Lemma con_fs_est_fs st : con_fs (est_fs st) st = st.
Proof. by destruct st. Qed.

Lemma contar_todos_con_fs total i rs fs st :
  contar_todos total i rs (con_fs fs st) = con_fs fs (contar_todos total i rs st).
Proof.
  revert i st. induction rs as [|r rs IH]; intros i st; [reflexivity|].
  cbn [contar_todos]. by rewrite contar_con_fs, IH.
Qed.

Lemma contar_todos_cuenta total i rs st :
  cuenta (contar_todos total i rs st) = cuenta st + length rs.
Proof.
  revert i st. induction rs as [|r rs IH]; intros i st; cbn [contar_todos length].
  - lia.
  - rewrite IH, contar_cuenta. lia.
Qed.

Lemma contar_todos_stdout total i rs st :
  est_stdout (contar_todos total i rs st)
  = est_stdout st
    ++ imap (λ k r, {| li_i := i + k; li_total := total; li_texto := r |}) rs.
Proof.
  revert i st. induction rs as [|r rs IH]; intros i st; cbn [contar_todos].
  - by rewrite app_nil_r.
  - rewrite IH, contar_stdout, <- app_assoc. cbn [imap app]. f_equal.
    rewrite Nat.add_0_r. f_equal. apply imap_ext. intros k x _. cbn.
    f_equal. lia.
Qed.

Lemma contar_todos_app total i rs1 rs2 st :
  contar_todos total i (rs1 ++ rs2) st
  = contar_todos total (i + length rs1) rs2 (contar_todos total i rs1 st).
Proof.
  revert i st. induction rs1 as [|r rs1 IH]; intros i st; cbn [app contar_todos length].
  - by rewrite Nat.add_0_r.
  - rewrite IH. f_equal. lia.
Qed.

(** ** The loops of the batch *)

Section LoteProps.

Variable Image : Type.
Variable remove : bytes → outcome bytes.
Variable image_open_rgba : bytes → outcome Image.
Variable image_encode : Image → string → bool → Z → outcome bytes.
Variable os_error : os_fault → string → excepcion.
Variable denegado : string → option excepcion.

Abbreviation procesar_msg :=
  (procesar_imagen_msg Image remove image_open_rgba image_encode os_error denegado).
Abbreviation procesar :=
  (procesar_imagen Image remove image_open_rgba image_encode os_error denegado).
Abbreviation resultado :=
  (resultado_en Image remove image_open_rgba image_encode os_error denegado).
Abbreviation secuencial' :=
  (secuencial Image remove image_open_rgba image_encode os_error denegado).
Abbreviation ejecutar_tarea' :=
  (ejecutar_tarea Image remove image_open_rgba image_encode os_error denegado).
Abbreviation trabajadores' :=
  (trabajadores Image remove image_open_rgba image_encode os_error denegado).
Abbreviation pool_loop' :=
  (pool_loop Image remove image_open_rgba image_encode os_error denegado).
Abbreviation main' :=
  (main Image remove image_open_rgba image_encode os_error denegado).

(** *** The fallback loop *)

(** The fallback loop runs to its end and counts one result per file. *)
Lemma secuencial_returns inf outf total i archivos st :
  ∃ st', secuencial' inf outf total i archivos st = (st', None) ∧
    cuenta st' = cuenta st + length archivos ∧
    length (est_stdout st') = length (est_stdout st) + length archivos.
Proof.
  revert i st. induction archivos as [|f l IH]; intros i st; cbn [secuencial].
  - exists st. cbn. repeat split; lia.
  - rewrite procesar_resultado.
    destruct (IH (S i) (contar i total (resultado (est_fs st) (inf, outf, f))
      (con_fs (procesar_msg (inf, outf, f) (est_fs st)).1 st))) as (st' & -> & Hc & Hl).
    exists st'. split; [reflexivity|].
    rewrite Hc, Hl, contar_cuenta, contar_stdout, length_app.
    unfold cuenta, con_fs. cbn. split; lia.
Qed.

(** When the tasks write outside the inputs, every file gets the result
    it has on the file system the batch started from. *)
Lemma secuencial_conserva entradas fs0 inf outf total i archivos st :
  separadas entradas ((λ f, (inf, outf, f)) <$> archivos) →
  conserva entradas fs0 (est_fs st) →
  ∃ fs', conserva entradas fs0 fs' ∧
    secuencial' inf outf total i archivos st
    = (con_fs fs' (contar_todos total i
         ((λ f, resultado fs0 (inf, outf, f)) <$> archivos) st), None).
Proof.
  unfold separadas, resultado_en.
  revert i st. induction archivos as [|f l IH]; intros i st Hsep Hk;
    cbn [secuencial fmap list_fmap contar_todos].
  - exists (est_fs st). split; [done|]. by rewrite con_fs_est_fs.
  - apply Forall_cons in Hsep as [[Hin Hout] Hsep].
    rewrite procesar_resultado. unfold resultado_en.
    rewrite (mensaje_conserva _ _ _ _ _ _ entradas _ fs0 (est_fs st)) by done.
    set (fs1 := (procesar_msg (inf, outf, f) (est_fs st)).1).
    destruct (IH (S i) (contar i total
        (render (mensaje_en Image remove image_open_rgba image_encode os_error denegado
           fs0 (inf, outf, f))) (con_fs fs1 st)) Hsep) as (fs' & Hk' & ->).
    { rewrite contar_fs. cbn. eapply conserva_trans; [exact Hk|].
      by apply procesar_msg_conserva. }
    exists fs'. split; [done|].
    by rewrite contar_con_fs, contar_todos_con_fs, con_fs_con_fs.
Qed.

(** *** The workers *)

(** Every future the workers set holds a returned text, and the futures
    set are those of the tasks the workers ran. *)
Lemma trabajadores_futuros tareas orden (w : filesystem * Futuros) :
  (∀ j o, w.2 !! j = Some o → ∃ r, o = Return r) →
  let w' := fold_left (ejecutar_tarea' tareas) orden w in
  (∀ j o, w'.2 !! j = Some o → ∃ r, o = Return r) ∧
  (∀ j, is_Some (w'.2 !! j) ↔
        is_Some (w.2 !! j) ∨ (j ∈ orden ∧ j < length tareas)).
Proof.
  revert w. induction orden as [|k l IH]; intros w Hw; cbn [fold_left].
  - split; [exact Hw|]. intros j. split; [by left|].
    intros [H|[H _]]; [done|]. by apply elem_of_nil in H.
  - set (w1 := ejecutar_tarea' tareas w k).
    assert (H1 : (∀ j o, w1.2 !! j = Some o → ∃ r, o = Return r) ∧
                 (∀ j, is_Some (w1.2 !! j) ↔
                       is_Some (w.2 !! j) ∨ (j = k ∧ j < length tareas))).
    { subst w1. unfold ejecutar_tarea.
      destruct (tareas !! k) as [t|] eqn:Et.
      - rewrite procesar_resultado. cbn [snd]. split.
        + intros j o. destruct (decide (k = j)) as [->|Hne].
          * rewrite lookup_insert_eq. intros [= <-]. by eexists.
          * rewrite lookup_insert_ne by done. apply Hw.
        + intros j. destruct (decide (k = j)) as [->|Hne].
          * rewrite lookup_insert_eq. split; [|by eauto].
            intros _. right. split; [done|]. by eapply lookup_lt_Some.
          * rewrite lookup_insert_ne by done. split; [by left|].
            intros [H|[-> _]]; done.
      - split; [exact Hw|]. intros j. split; [by left|].
        intros [H|[-> H]]; [done|].
        apply lookup_ge_None in Et. lia. }
    destruct H1 as [Hr1 Hs1]. destruct (IH w1 Hr1) as [Hr Hs].
    split; [exact Hr|]. intros j. rewrite Hs, Hs1, elem_of_cons. tauto.
Qed.

(** When the tasks write outside the inputs, the workers leave the inputs
    as they were and every future holds the result its task has on the file
    system the batch started from, whatever the order of the workers. *)
Lemma trabajadores_conserva entradas fs0 tareas orden (w : filesystem * Futuros) :
  separadas entradas tareas →
  conserva entradas fs0 w.1 →
  (∀ j o, w.2 !! j = Some o →
     ∃ t, tareas !! j = Some t ∧ o = Return (resultado fs0 t)) →
  let w' := fold_left (ejecutar_tarea' tareas) orden w in
  conserva entradas fs0 w'.1 ∧
  (∀ j o, w'.2 !! j = Some o →
     ∃ t, tareas !! j = Some t ∧ o = Return (resultado fs0 t)).
Proof.
  intros Hsep. revert w.
  induction orden as [|k l IH]; intros w Hk Hw; cbn [fold_left]; [done|].
  apply IH; unfold ejecutar_tarea; destruct (tareas !! k) as [t|] eqn:Et;
    try done; rewrite procesar_resultado; cbn [fst snd].
  - eapply conserva_trans; [exact Hk|]. apply procesar_msg_conserva.
    unfold separadas in Hsep. rewrite Forall_forall in Hsep.
    apply (Hsep t). by eapply list_elem_of_lookup_2.
  - intros j o. destruct (decide (k = j)) as [->|Hne].
    + rewrite lookup_insert_eq. intros [= <-]. exists t. split; [done|].
      f_equal. unfold resultado_en. f_equal.
      apply (mensaje_conserva _ _ _ _ _ _ entradas); [|done].
      unfold separadas in Hsep. rewrite Forall_forall in Hsep.
      apply (Hsep t). by eapply list_elem_of_lookup_2.
    + rewrite lookup_insert_ne by done. apply Hw.
Qed.

(** *** The loop over the results of the pool *)

(** With every future set and holding a text, the loop counts them all,
    in the order of the futures. *)
Lemma consumir_agotado (futuros : Futuros) fallo total i indices rs st :
  Forall2 (λ j r, futuros !! j = Some (Return r)) indices rs →
  consumir futuros fallo total i indices st
  = (contar_todos total i rs st, Agotado).
Proof.
  intros H. revert i st.
  induction H as [|j r indices rs Hj _ IH]; intros i st;
    cbn [consumir contar_todos]; [reflexivity|].
  by rewrite Hj, IH.
Qed.

(** Whatever the futures hold, the loop counts a prefix of them. *)
Lemma consumir_prefijo (futuros : Futuros) fallo total i indices st :
  ∃ rs fin, consumir futuros fallo total i indices st
            = (contar_todos total i rs st, fin) ∧
    length rs ≤ length indices ∧
    Forall2 (λ j r, futuros !! j = Some (Return r)) (take (length rs) indices) rs ∧
    (fin = Agotado → length rs = length indices).
Proof.
  revert i st. induction indices as [|j l IH]; intros i st; cbn [consumir].
  - exists [], Agotado. cbn. repeat split; [lia|constructor].
  - destruct (futuros !! j) as [[r|e]|] eqn:Ej.
    + destruct (IH (S i) (contar i total r st)) as (rs & fin & -> & Hl & Hf & Ha).
      exists (r :: rs), fin. cbn [contar_todos length take].
      repeat split; [lia|by constructor|]. intros ->. rewrite Ha; done.
    + exists [], (Interrumpido e). cbn. repeat split; [lia|constructor|done].
    + destruct fallo as [e|].
      * exists [], (Interrumpido e). cbn. repeat split; [lia|constructor|done].
      * exists [], Bloqueado. cbn. repeat split; [lia|constructor|done].
Qed.

Lemma consumir_todos (futuros : Futuros) fallo total i indices st :
  (∀ j, j ∈ indices → ∃ r, futuros !! j = Some (Return r)) →
  ∃ rs, length rs = length indices ∧
    consumir futuros fallo total i indices st
    = (contar_todos total i rs st, Agotado).
Proof.
  revert i st. induction indices as [|j l IH]; intros i st H; cbn [consumir].
  - by exists [].
  - destruct (H j) as [r Hr]; [by left|]. rewrite Hr.
    destruct (IH (S i) (contar i total r st)) as (rs & Hl & ->).
    { intros j' Hj'. apply H. by right. }
    exists (r :: rs). cbn. by rewrite Hl.
Qed.

(** *** The pool block *)

Lemma sano_completa w n p j :
  pool_sano w n p → j < n → j ∈ completadas p.
Proof.
  intros (_ & Hp & _) Hj. rewrite Hp. apply elem_of_seq. lia.
Qed.

(** A pool that stays up hands one result per task to the loop. *)
Lemma pool_loop_sano tareas total w p st :
  pool_sano w (length tareas) p →
  ∃ rs fs', length rs = length tareas ∧
    pool_loop' tareas total p st
    = (con_fs fs' (contar_todos total 1 rs st), Agotado).
Proof.
  intros Hp. unfold pool_loop, trabajadores.
  pose proof (trabajadores_futuros tareas (completadas p) (est_fs st, ∅)) as H.
  destruct (fold_left _ _ _) as [fs' fut]. cbn in H.
  destruct H as [Hr Hs]. { intros j o. by rewrite lookup_empty. }
  destruct (consumir_todos fut (fallo p) total 1 (seq 0 (length tareas))
              (con_fs fs' st)) as (rs & Hl & ->).
  { intros j Hj. apply elem_of_seq in Hj.
    destruct (proj2 (Hs j)) as [o Ho].
    { right. split; [|lia]. eapply sano_completa; [done|lia]. }
    destruct (Hr j o Ho) as [r ->]. by exists r. }
  exists rs, fs'. rewrite length_seq in Hl. split; [done|].
  by rewrite contar_todos_con_fs.
Qed.

(** Whatever the pool does, the loop counts the results of some first
    tasks, and of all of them when it is not interrupted. *)
Lemma pool_loop_prefijo tareas total p st :
  ∃ rs fin fs', length rs ≤ length tareas ∧
    (fin = Agotado → length rs = length tareas) ∧
    pool_loop' tareas total p st
    = (con_fs fs' (contar_todos total 1 rs st), fin).
Proof.
  unfold pool_loop. destruct (trabajadores' _ _ _) as [fs' fut].
  destruct (consumir_prefijo fut (fallo p) total 1 (seq 0 (length tareas))
              (con_fs fs' st)) as (rs & fin & -> & Hl & _ & Ha).
  rewrite length_seq in Hl, Ha. exists rs, fin, fs'.
  by rewrite contar_todos_con_fs.
Qed.

(** When the tasks write outside the inputs, a pool that stays up hands
    over, for each task in the order of submission, the result the task has
    on the file system the batch started from. *)
Lemma pool_loop_sano_conserva entradas fs0 tareas total w p st :
  separadas entradas tareas →
  conserva entradas fs0 (est_fs st) →
  pool_sano w (length tareas) p →
  ∃ fs', conserva entradas fs0 fs' ∧
    pool_loop' tareas total p st
    = (con_fs fs' (contar_todos total 1 (resultado fs0 <$> tareas) st), Agotado).
Proof.
  intros Hsep Hk Hp. unfold pool_loop, trabajadores.
  pose proof (trabajadores_futuros tareas (completadas p) (est_fs st, ∅)) as H.
  pose proof (trabajadores_conserva entradas fs0 tareas (completadas p)
                (est_fs st, ∅) Hsep Hk) as H'.
  destruct (fold_left _ _ _) as [fs' fut]. cbn in H, H'.
  destruct H as [_ Hs]. { intros j o. by rewrite lookup_empty. }
  destruct H' as [Hk' Hv]. { intros j o. by rewrite lookup_empty. }
  exists fs'. split; [done|].
  rewrite (consumir_agotado fut (fallo p) total 1 _ (resultado fs0 <$> tareas)).
  { by rewrite contar_todos_con_fs. }
  apply Forall2_same_length_lookup_2.
  { by rewrite length_seq, length_fmap. }
  intros i j r Hj Hr. apply lookup_seq in Hj as [-> Hi]. cbn.
  rewrite list_lookup_fmap in Hr.
  destruct (tareas !! i) as [t|] eqn:Et; [|discriminate]. injection Hr as <-.
  destruct (proj2 (Hs i)) as [o Ho].
  { right. split; [|done]. eapply sano_completa; [done|lia]. }
  destruct (Hv i o Ho) as (t' & Et' & ->). congruence.
Qed.


(** The tasks [main] builds read the files of the input folder and write
    into [imagenes_sin_fondo], which holds none of them. *)
Lemma separadas_main inf (archivos : list string) :
  Forall es_nombre archivos →
  separadas (path_join inf <$> archivos)
    ((λ f, (inf, path_join inf "imagenes_sin_fondo", f)) <$> archivos).
Proof.
  intros Hn. unfold separadas. apply Forall_fmap, Forall_forall.
  intros f Hf. cbn. split.
  - by apply list_elem_of_fmap_2.
  - intros Hin. apply list_elem_of_fmap in Hin as (f' & E & Hf').
    rewrite Forall_forall in Hn.
    by apply (entrada_no_es_salida inf f' f (Hn f' Hf')).
Qed.

(** *** The batch *)

Lemma main_candidatos inf listdir p fs :
  buscar_archivos listdir ≠ [] →
  main' inf listdir p fs =
    let output_folder := path_join inf "imagenes_sin_fondo" in
    let archivos := buscar_archivos listdir in
    let st0 := {| est_fs := fs; resultados_exitosos := 0;
                  resultados_con_error := 0; est_stdout := [] |} in
    match pool_loop' ((λ f, (inf, output_folder, f)) <$> archivos)
            (length archivos) p st0 with
    | (st1, Agotado) => Resumen st1
    | (st1, Bloqueado) => Colgado st1
    | (st1, Interrumpido _) =>
        match secuencial' inf output_folder (length archivos) 1 archivos st1 with
        | (st2, None) => Resumen st2
        | (st2, Some e) => NoCapturada e st2
        end
    end.
Proof. intros H. unfold main. by rewrite bool_decide_false. Qed.

(** No exception leaves [main] through the fallback loop. *)
Lemma main_nunca_propaga inf listdir p fs e st :
  main' inf listdir p fs ≠ NoCapturada e st.
Proof.
  unfold main. case_bool_decide; [done|].
  destruct (pool_loop' _ _ _ _) as [st1 [|e1|]]; [done| |done].
  destruct (secuencial_returns inf (path_join inf "imagenes_sin_fondo")
              (length (buscar_archivos listdir)) 1 (buscar_archivos listdir) st1)
    as (st2 & -> & _). done.
Qed.

(** A run that reaches its summary has counted every file once, plus once
    more each file whose result the pool handed over before it broke. *)
Lemma main_cuenta inf listdir p fs st :
  main' inf listdir p fs = Resumen st →
  ∃ k, k ≤ length (buscar_archivos listdir) ∧
    cuenta st = k + length (buscar_archivos listdir) ∧
    length (est_stdout st) = k + length (buscar_archivos listdir).
Proof.
  unfold main. case_bool_decide; [done|].
  set (archivos := buscar_archivos listdir) in *.
  set (outf := path_join inf "imagenes_sin_fondo").
  destruct (pool_loop_prefijo ((λ f, (inf, outf, f)) <$> archivos)
              (length archivos) p
              {| est_fs := fs; resultados_exitosos := 0;
                 resultados_con_error := 0; est_stdout := [] |})
    as (rs & fin & fs' & Hl & Ha & ->).
  rewrite length_fmap in Hl, Ha.
  destruct fin as [|e|]; [| |done].
  - intros [= <-]. exists 0. split; [lia|].
    rewrite <- contar_todos_con_fs, contar_todos_cuenta, contar_todos_stdout.
    rewrite length_app, length_imap, Ha by done. cbn. lia.
  - destruct (secuencial_returns inf outf (length archivos) 1 archivos
                (con_fs fs' (contar_todos (length archivos) 1 rs
                   {| est_fs := fs; resultados_exitosos := 0;
                      resultados_con_error := 0; est_stdout := [] |})))
      as (st2 & -> & Hc & Hs).
    intros [= <-]. exists (length rs). split; [done|].
    rewrite Hc, Hs, <- contar_todos_con_fs, contar_todos_cuenta,
      contar_todos_stdout, length_app, length_imap. cbn. lia.
Qed.

(** With a pool that stays up the summary counts every file once. *)
Lemma main_sano inf listdir p fs :
  buscar_archivos listdir ≠ [] →
  pool_sano (max_workers (buscar_archivos listdir))
    (length (buscar_archivos listdir)) p →
  ∃ st, main' inf listdir p fs = Resumen st ∧
    cuenta st = length (buscar_archivos listdir) ∧
    length (est_stdout st) = length (buscar_archivos listdir).
Proof.
  intros Hne Hp. rewrite main_candidatos by done. cbn zeta.
  set (archivos := buscar_archivos listdir) in *.
  destruct (pool_loop_sano ((λ f, (inf, path_join inf "imagenes_sin_fondo", f))
              <$> archivos) (length archivos) (max_workers archivos) p
              {| est_fs := fs; resultados_exitosos := 0;
                 resultados_con_error := 0; est_stdout := [] |})
    as (rs & fs' & Hl & ->). { by rewrite length_fmap. }
  rewrite length_fmap in Hl. eexists. split; [reflexivity|].
  rewrite <- contar_todos_con_fs, contar_todos_cuenta, contar_todos_stdout,
    length_app, length_imap, Hl. cbn. lia.
Qed.

(** With a pool that stays up and names from a directory listing, line [i]
    reports the [i]-th file of [archivos], with the result the file has on
    the file system the batch started from. *)
Lemma main_sano_nombres inf listdir p fs :
  Forall es_nombre listdir →
  buscar_archivos listdir ≠ [] →
  pool_sano (max_workers (buscar_archivos listdir))
    (length (buscar_archivos listdir)) p →
  ∃ st, main' inf listdir p fs = Resumen st ∧
    st = con_fs (est_fs st)
           (contar_todos (length (buscar_archivos listdir)) 1
              ((λ f, resultado fs (inf, path_join inf "imagenes_sin_fondo", f))
                 <$> buscar_archivos listdir)
              {| est_fs := fs; resultados_exitosos := 0;
                 resultados_con_error := 0; est_stdout := [] |}) ∧
    conserva (path_join inf <$> buscar_archivos listdir) fs (est_fs st).
Proof.
  intros Hn Hne Hp. rewrite main_candidatos by done. cbn zeta.
  apply buscar_archivos_nombres in Hn.
  set (archivos := buscar_archivos listdir) in *.
  destruct (pool_loop_sano_conserva (path_join inf <$> archivos) fs
              ((λ f, (inf, path_join inf "imagenes_sin_fondo", f)) <$> archivos)
              (length archivos) (max_workers archivos) p
              {| est_fs := fs; resultados_exitosos := 0;
                 resultados_con_error := 0; est_stdout := [] |})
    as (fs' & Hk & ->).
  { by apply separadas_main. } { apply conserva_refl. } { by rewrite length_fmap. }
  eexists. split; [reflexivity|]. cbn [est_fs con_fs]. split; [|done].
  by rewrite <- list_fmap_compose.
Qed.


(** A pool that breaks before the result of the first task is there hands
    nothing over: the summary is the one of the fallback loop alone, which
    counts every file once. *)
Lemma main_roto_de_entrada inf listdir p fs e :
  buscar_archivos listdir ≠ [] →
  fallo p = Some e → 0 ∉ completadas p →
  ∃ fs' st, main' inf listdir p fs = Resumen st ∧
    secuencial' inf (path_join inf "imagenes_sin_fondo")
      (length (buscar_archivos listdir)) 1 (buscar_archivos listdir)
      {| est_fs := fs'; resultados_exitosos := 0;
         resultados_con_error := 0; est_stdout := [] |} = (st, None) ∧
    cuenta st = length (buscar_archivos listdir).
Proof.
  intros Hne Hf H0. rewrite main_candidatos by done. cbn zeta.
  set (archivos := buscar_archivos listdir) in *.
  set (outf := path_join inf "imagenes_sin_fondo").
  unfold pool_loop, trabajadores.
  pose proof (trabajadores_futuros ((λ f, (inf, outf, f)) <$> archivos)
                (completadas p) (fs, ∅)) as H.
  cbn [est_fs]. destruct (fold_left _ _ _) as [fs' fut]. cbn in H.
  destruct H as [_ Hs]. { intros j o. by rewrite lookup_empty. }
  assert (E0 : fut !! 0 = None).
  { destruct (fut !! 0) eqn:E; [|done].
    destruct (proj1 (Hs 0)) as [[? H]|[H _]]; [by eexists| |done].
    by rewrite lookup_empty in H. }
  rewrite length_fmap. destruct archivos as [|f l] eqn:Ea; [done|].
  cbn [length seq consumir]. rewrite E0, Hf.
  destruct (secuencial_returns inf outf (S (length l)) 1 (f :: l)
              (con_fs fs' {| est_fs := fs; resultados_exitosos := 0;
                 resultados_con_error := 0; est_stdout := [] |}))
    as (st & Hsec & Hc & _).
  rewrite Hsec. exists fs', st. split; [done|]. split; [exact Hsec|].
  rewrite Hc. cbn. lia.
Qed.
Lemma cuenta_con_fs fs st : cuenta (con_fs fs st) = cuenta st.
Proof. reflexivity. Qed.

Lemma stdout_con_fs fs st : est_stdout (con_fs fs st) = est_stdout st.
Proof. reflexivity. Qed.

(** How the loop over the results can end: blocked only when the pool
    reports no failure, interrupted only by the failure of the pool or by a
    future that holds an exception. *)
Lemma consumir_fin (futuros : Futuros) fallo total i indices st :
  match (consumir futuros fallo total i indices st).2 with
  | Agotado => True
  | Interrumpido e => fallo = Some e ∨ ∃ j, futuros !! j = Some (Raise e)
  | Bloqueado => fallo = None
  end.
Proof.
  revert i st. induction indices as [|j l IH]; intros i st; cbn [consumir];
    [done|].
  destruct (futuros !! j) as [[r|e]|] eqn:Ej; [apply IH| |].
  - right. by exists j.
  - destruct fallo as [e|]; cbn; [by left|done].
Qed.

(** When the tasks write outside the inputs, the pool block hands over the
    results of some first tasks, each the result the task has on the file
    system the batch started from, and of all of them when the loop is not
    interrupted; it is interrupted only by the failure of the pool. *)
Lemma pool_loop_resultados entradas fs0 tareas total p st :
  separadas entradas tareas →
  conserva entradas fs0 (est_fs st) →
  ∃ fs' m fin, conserva entradas fs0 fs' ∧ m ≤ length tareas ∧
    pool_loop' tareas total p st
    = (con_fs fs' (contar_todos total 1 (resultado fs0 <$> take m tareas) st), fin) ∧
    (fin = Agotado → m = length tareas) ∧
    (fin = Bloqueado → fallo p = None) ∧
    (∀ e, fin = Interrumpido e → fallo p = Some e).
Proof.
  intros Hsep Hk. unfold pool_loop, trabajadores.
  pose proof (trabajadores_futuros tareas (completadas p) (est_fs st, ∅)) as H.
  pose proof (trabajadores_conserva entradas fs0 tareas (completadas p)
                (est_fs st, ∅) Hsep Hk) as H'.
  destruct (fold_left _ _ _) as [fs' fut]. cbn in H, H'.
  destruct H as [Hr _]. { intros j o. by rewrite lookup_empty. }
  destruct H' as [Hk' Hv]. { intros j o. by rewrite lookup_empty. }
  pose proof (consumir_fin fut (fallo p) total 1 (seq 0 (length tareas))
                (con_fs fs' st)) as Hfin.
  destruct (consumir_prefijo fut (fallo p) total 1 (seq 0 (length tareas))
              (con_fs fs' st)) as (rs & fin & E & Hl & Hf & Ha).
  rewrite E in Hfin |- *. cbn [snd] in Hfin. rewrite length_seq in Hl, Ha.
  assert (Hrs : rs = resultado fs0 <$> take (length rs) tareas).
  { apply list_eq_same_length with (length rs); [|done|].
    { rewrite length_fmap, length_take. lia. }
    intros i x y Hi Hx Hy.
    destruct (Forall2_lookup_r _ _ _ i x Hf Hx) as (j & Hj & Hfut).
    apply lookup_take_Some in Hj as [Hj _].
    apply lookup_seq in Hj as [-> _]. cbn in Hfut.
    destruct (Hv i _ Hfut) as (t & Ht & [= ->]).
    rewrite list_lookup_fmap, lookup_take_lt, Ht in Hy by done.
    by injection Hy as <-. }
  exists fs', (length rs), fin. split; [done|]. split; [done|]. split.
  { rewrite <- Hrs. by rewrite contar_todos_con_fs. }
  split; [exact Ha|]. split.
  - intros ->. exact Hfin.
  - intros e ->. destruct Hfin as [Hp|[j Hj]]; [done|].
    destruct (Hr j _ Hj) as [r ?]. done.
Qed.

(** With names from a directory listing, a run whose pool stays up or
    breaks reaches its summary, and its lines are those the pool loop
    printed for some first files before the pool broke, none when it stayed
    up, followed by one line per file, in the order of [archivos], each with
    the result the file has on the file system the batch started from. *)
Lemma main_lineas inf listdir p fs :
  Forall es_nombre listdir →
  buscar_archivos listdir ≠ [] →
  pool_sano (max_workers (buscar_archivos listdir))
    (length (buscar_archivos listdir)) p ∨ is_Some (fallo p) →
  let linea := λ k f, {| li_i := S k; li_total := length (buscar_archivos listdir);
                         li_texto := resultado fs
                           (inf, path_join inf "imagenes_sin_fondo", f) |} in
  ∃ st m, main' inf listdir p fs = Resumen st ∧
    m ≤ length (buscar_archivos listdir) ∧
    est_stdout st = imap linea (take m (buscar_archivos listdir))
                    ++ imap linea (buscar_archivos listdir) ∧
    cuenta st = m + length (buscar_archivos listdir) ∧
    (fallo p = None → m = 0).
Proof.
  intros Hn Hne Hp linea.
  destruct Hp as [Hp|Hp].
  { destruct (main_sano_nombres inf listdir p fs Hn Hne Hp) as (st & Hm & Hst & _).
    exists st, 0. split; [exact Hm|]. split; [lia|]. rewrite Hst.
    rewrite cuenta_con_fs, stdout_con_fs, contar_todos_stdout,
      contar_todos_cuenta, length_fmap.
    cbn [est_stdout app take imap]. split; [|done].
    rewrite imap_fmap. apply imap_ext. by intros k f _. }
  destruct Hp as [e He].
  rewrite main_candidatos by done. cbn zeta.
  apply buscar_archivos_nombres in Hn.
  set (archivos := buscar_archivos listdir) in *.
  set (outf := path_join inf "imagenes_sin_fondo") in *.
  set (st0 := {| est_fs := fs; resultados_exitosos := 0;
                 resultados_con_error := 0; est_stdout := [] |}).
  destruct (pool_loop_resultados (path_join inf <$> archivos) fs
              ((λ f, (inf, outf, f)) <$> archivos) (length archivos) p st0
              (separadas_main inf archivos Hn) (conserva_refl _ fs))
    as (fs' & m & fin & Hk & Hm & -> & Ha & Hb & _).
  rewrite length_fmap in Hm, Ha.
  assert (Hl : ∀ i (l : list string),
    imap (λ k r, {| li_i := i + k; li_total := length archivos; li_texto := r |})
      (resultado fs <$> ((λ f, (inf, outf, f)) <$> l))
    = imap (λ k f, {| li_i := i + k; li_total := length archivos;
                       li_texto := resultado fs (inf, outf, f) |}) l).
  { intros i l. rewrite <- list_fmap_compose, imap_fmap. done. }
  destruct fin as [|e'|].
  - exists (con_fs fs' (contar_todos (length archivos) 1
              (resultado fs <$> take m ((λ f, (inf, outf, f)) <$> archivos)) st0)), 0.
    split; [done|]. split; [lia|].
    rewrite Ha by done. rewrite firstn_all2 by (rewrite length_fmap; lia).
    rewrite cuenta_con_fs, stdout_con_fs, contar_todos_stdout,
      contar_todos_cuenta, !length_fmap, Hl.
    cbn [est_stdout app take imap st0]. done.
  - rewrite <- fmap_take.
    match goal with
    | |- context [secuencial' ?a ?b ?c ?d ?l ?st1] =>
        destruct (secuencial_conserva (path_join inf <$> archivos) fs a b c d l st1
                    (separadas_main inf archivos Hn))
          as (fs'' & _ & Hsec); [done|]
    end.
    eexists _, m. rewrite Hsec. split; [reflexivity|]. split; [done|].
    rewrite cuenta_con_fs, stdout_con_fs, !contar_todos_stdout,
      !contar_todos_cuenta, cuenta_con_fs, stdout_con_fs, !contar_todos_stdout,
      !contar_todos_cuenta, !length_fmap, Hl, length_take, imap_fmap.
    cbn [est_stdout app st0]. split; [done|]. split.
    + unfold cuenta. cbn. lia.
    + rewrite He. discriminate.
  - rewrite Hb in He by done. discriminate.
Qed.

End LoteProps.

(** * The claims of the specification *)

Lemma render_contains_nombre (x : string) (m : Mensaje) :
  Str.contains x (nombre_de m) = true → Str.contains x (render m) = true.
Proof.
  destruct m; cbn [render nombre_de]; intros H;
    try (by apply contains_embedded); by apply contains_app_l.
Qed.


Section Afirmaciones.

Variable Image : Type.
Variable remove : bytes → outcome bytes.
Variable image_open_rgba : bytes → outcome Image.
Variable image_encode : Image → string → bool → Z → outcome bytes.
Variable os_error : os_fault → string → excepcion.
Variable denegado : string → option excepcion.

Abbreviation procesar_msg :=
  (procesar_imagen_msg Image remove image_open_rgba image_encode os_error denegado).
Abbreviation procesar :=
  (procesar_imagen Image remove image_open_rgba image_encode os_error denegado).
Abbreviation mensaje :=
  (mensaje_en Image remove image_open_rgba image_encode os_error denegado).
Abbreviation resultado :=
  (resultado_en Image remove image_open_rgba image_encode os_error denegado).
Abbreviation secuencial' :=
  (secuencial Image remove image_open_rgba image_encode os_error denegado).
Abbreviation main' :=
  (main Image remove image_open_rgba image_encode os_error denegado).

(** Every message is about the file of its task. *)
Lemma mensaje_nombre (t : Task) (fs : filesystem) : nombre_de (mensaje fs t) = t.2.
Proof.
  unfold mensaje_en. destruct t as [[inf outf] f]. py_unfold.
  repeat (case_match; simplify_eq/=; eauto).
Qed.

(** C5: a task whose resolved input path [input_folder/filename] does not
    exist gets the not-found failure of line 64, and the run writes nothing:
    the file system, the output folder with it, is the one it started
    from. *)
Theorem C5_missing_input_not_found (inf outf f : string) (fs : filesystem) :
  fs !! path_join inf f = None →
  procesar_msg (inf, outf, f) fs = (fs, Return (NoEncontrado f)) ∧
  procesar (inf, outf, f) fs = (fs, Return ("❌ Archivo no encontrado: " +:+ f)).
Proof.
  intros H. pose proof (procesar_no_encontrado Image remove image_open_rgba
    image_encode os_error denegado inf outf f fs H) as E.
  split; [exact E|].
  unfold procesar_imagen, mbind, py_mbind, py_bind. by rewrite E.
Qed.

(** C2, as the code has it: [procesar_imagen] returns a text for every task
    and every file system and raises no exception; an exception of the
    segmentation collaborator is caught by the one handler and comes back as
    the failure of line 106, the text and the trace of the exception in it
    and no reason beside them, the file system left as it was; and the batch
    goes on: whether the pool stays up or breaks, [main] reaches its summary,
    in which the pool loop, when the pool stayed up, and the fallback loop
    after what the pool loop had printed, when the pool broke, print one line
    for every file, the one of the failing file holding that failure and the
    others the results their files have on the file system the batch started
    from; no exception leaves [main]. *)
Theorem C2_exception_caught_batch_goes_on (inf : string) (listdir : list string)
    (fs : filesystem) (k : nat) (f : string) (c : bytes) (e : excepcion) :
  Forall es_nombre listdir →
  buscar_archivos listdir !! k = Some f →
  fs !! path_join inf f = Some (File c) → c ≠ [] →
  remove c = Raise e →
  let outf := path_join inf "imagenes_sin_fondo" in
  let archivos := buscar_archivos listdir in
  let texto := "❌ Error con " +:+ f +:+ ": " +:+ exc_str e +:+ nl +:+ exc_tb e in
  let linea := λ j g, {| li_i := S j; li_total := length archivos;
                         li_texto := resultado fs (inf, outf, g) |} in
  (∀ t fs0, ∃ fs' r, procesar t fs0 = (fs', Return r)) ∧
  procesar_msg (inf, outf, f) fs = (fs, Return (ErrorCon f e)) ∧
  procesar (inf, outf, f) fs = (fs, Return texto) ∧
  sitio (mensaje fs (inf, outf, f)) = L106 ∧
  (∀ p, pool_sano (max_workers archivos) (length archivos) p →
     ∃ st, main' inf listdir p fs = Resumen st ∧
       est_stdout st = imap linea archivos ∧
       est_stdout st !! k
       = Some {| li_i := S k; li_total := length archivos; li_texto := texto |} ∧
       cuenta st = length archivos) ∧
  (∀ p, is_Some (fallo p) →
     ∃ st m, main' inf listdir p fs = Resumen st ∧
       m ≤ length archivos ∧
       est_stdout st = imap linea (take m archivos) ++ imap linea archivos ∧
       est_stdout st !! (m + k)
       = Some {| li_i := S k; li_total := length archivos; li_texto := texto |} ∧
       cuenta st = m + length archivos) ∧
  (∀ p e' st, main' inf listdir p fs ≠ NoCapturada e' st).
Proof.
  intros Hn Hk Hin Hc Hr outf archivos texto linea.
  pose proof (procesar_remove_lanza Image remove image_open_rgba
    image_encode os_error denegado inf outf f fs c e Hin Hc Hr) as E.
  assert (Hres : resultado fs (inf, outf, f) = texto).
  { unfold resultado_en, mensaje_en. by rewrite E. }
  assert (Hne : archivos ≠ []).
  { intros E0. unfold archivos in E0. by rewrite E0 in Hk. }
  assert (Hlin : imap linea archivos !! k
                 = Some {| li_i := S k; li_total := length archivos;
                           li_texto := texto |}).
  { rewrite list_lookup_imap. fold archivos in Hk. rewrite Hk. cbn.
    unfold linea. by rewrite Hres. }
  split; [|split; [exact E|split; [|split; [|split; [|split]]]]].
  - intros t fs0. rewrite procesar_resultado. by eexists _, _.
  - unfold procesar_imagen, mbind, py_mbind, py_bind. by rewrite E.
  - unfold mensaje_en. by rewrite E.
  - intros p Hp.
    destruct (main_lineas Image remove image_open_rgba image_encode os_error
                denegado inf listdir p fs Hn Hne (or_introl Hp))
      as (st & m & Hm & _ & Hs & Hcu & H0).
    rewrite (H0 (proj1 Hp)) in Hs, Hcu. cbn [take imap app] in Hs.
    exists st. split; [exact Hm|]. split; [exact Hs|].
    split; [by rewrite Hs|exact Hcu].
  - intros p Hp.
    destruct (main_lineas Image remove image_open_rgba image_encode os_error
                denegado inf listdir p fs Hn Hne (or_intror Hp))
      as (st & m & Hm & Hle & Hs & Hcu & _).
    exists st, m. split; [exact Hm|]. split; [exact Hle|]. split; [exact Hs|].
    split; [|exact Hcu].
    change (est_stdout st = imap linea (take m archivos) ++ imap linea archivos)
      in Hs.
    change (m ≤ length archivos) in Hle.
    assert (Hlen : length (imap linea (take m archivos)) = m)
      by (rewrite length_imap, length_take; lia).
    rewrite Hs, lookup_app_r by (rewrite Hlen; lia). rewrite Hlen.
    replace (m + k - m) with k by lia. exact Hlin.
  - intros p e' st. apply main_nunca_propaga.
Qed.

(** C4, as the code has it: for a task that reaches the write step the
    output name is [stem(filename)] followed by [_sin_fondo.webp].  When the
    [save] call returns, the file at that name in the output folder holds
    what the encoder gives for format WEBP, lossless, quality 100, and the
    result is the success of line 100 exactly when that file is not empty,
    which is when [os.path.exists] and a positive [os.path.getsize] hold of
    it, and the failure of line 102 otherwise.  When the [save] call raises,
    as it does when the output folder is not there, when the system refuses
    the write, when a directory stands at the output path and when the
    encoder fails, the result is the failure of line 106 with that
    exception, neither the success nor the failure of line 102. *)
Theorem C4_write_step_outcomes (inf outf f : string) (fs : filesystem)
    (c out : bytes) (img : Image) :
  fs !! path_join inf f = Some (File c) → c ≠ [] →
  remove c = Return out → out ≠ [] →
  image_open_rgba out = Return img →
  let output_filename := stem f +:+ "_sin_fondo.webp" in
  let output_path := path_join outf output_filename in
  let verificado fs' :=
    os_path_exists output_path fs' = (fs', Return true) ∧
    ∃ n, os_path_getsize os_error output_path fs' = (fs', Return n) ∧ (0 < n)%Z in
  ∃ fs' m,
    procesar_msg (inf, outf, f) fs = (fs', Return m) ∧
    procesar (inf, outf, f) fs = (fs', Return (render m)) ∧
    match image_save Image image_encode os_error denegado img output_path
            "WEBP" true 100%Z fs with
    | (fs1, Return _) =>
        fs' = fs1 ∧
        abrir_escritura os_error denegado output_path fs = None ∧
        ∃ data, image_encode img "WEBP" true 100%Z = Return data ∧
          fs' = <[output_path := File data]> fs ∧
          (m = Exito f output_filename ↔
           ∃ d, fs' !! output_path = Some (File d) ∧ d ≠ []) ∧
          (m = Exito f output_filename ↔ verificado fs') ∧
          (m ≠ Exito f output_filename → m = ErrorGuardar f)
    | (fs1, Raise e) =>
        fs' = fs1 ∧ m = ErrorCon f e ∧
        (abrir_escritura os_error denegado output_path fs = Some e ∧ fs' = fs
         ∨ abrir_escritura os_error denegado output_path fs = None ∧
           image_encode img "WEBP" true 100%Z = Raise e)
    end ∧
    (is_dir (fs !! output_path) = false → hay_carpeta output_path fs = false →
     fs' = fs ∧ m = ErrorCon f (os_error ENOENT output_path)).
Proof.
  intros Hin Hc Hr Ho Hd output_filename output_path verificado.
  assert (Hren : ∀ fs' m, procesar_msg (inf, outf, f) fs = (fs', Return m) →
            procesar (inf, outf, f) fs = (fs', Return (render m))).
  { intros fs' m E. unfold procesar_imagen, mbind, py_mbind, py_bind. by rewrite E. }
  destruct (abrir_escritura os_error denegado output_path fs) as [e|] eqn:Ea.
  { assert (E : procesar_msg (inf, outf, f) fs = (fs, Return (ErrorCon f e))).
    { unfold output_path, output_filename in Ea. by py_run. }
    exists fs, (ErrorCon f e). split; [exact E|]. split; [by apply Hren|].
    unfold image_save. rewrite Ea. split; [by auto|].
    intros Hnd Hnc. split; [done|]. f_equal.
    unfold abrir_escritura in Ea. rewrite Hnd, Hnc in Ea. cbn in Ea. congruence. }
  destruct (image_encode img "WEBP" true 100%Z) as [data|e] eqn:Ee.
  - pose proof (procesar_escrito Image remove image_open_rgba image_encode
      os_error denegado inf outf f fs c out img data Hin Hc Hr Ho Hd Ea Ee) as E.
    change (path_join outf (output_filename_of f)) with output_path in E.
    change (output_filename_of f) with output_filename in E.
    eexists _, _. split; [exact E|]. split; [by apply Hren|].
    unfold image_save. rewrite Ea, Ee. split.
    + split; [reflexivity|]. split; [reflexivity|]. exists data.
      split; [reflexivity|]. split; [reflexivity|].
      assert (Hv : verificado (<[output_path := File data]> fs) ↔ data ≠ []).
      { unfold verificado, os_path_exists, os_path_getsize.
        rewrite lookup_insert_eq. rewrite bool_decide_true by eauto. split.
        - intros (_ & n & [= <-] & Hn) ->. cbn in Hn. lia.
        - intros Hne. split; [done|]. eexists. split; [done|].
          destruct data; [done|]. cbn [length]. lia. }
      assert (Hf : (∃ d, <[output_path := File data]> fs !! output_path
                         = Some (File d) ∧ d ≠ []) ↔ data ≠ []).
      { rewrite lookup_insert_eq. split.
        - by intros (d & [= <-] & ?).
        - intros ?. by exists data. }
      rewrite Hv, Hf. case_bool_decide as Hdata.
      * repeat split; try (intros; congruence); try done.
      * repeat split; try (intros; congruence); try done.
    + intros _ Hnc. unfold abrir_escritura in Ea.
      rewrite Hnc in Ea. by destruct (is_dir _).
  - pose proof (procesar_guardar_lanza Image remove image_open_rgba image_encode
      os_error denegado inf outf f fs c out img e Hin Hc Hr Ho Hd) as E.
    change (path_join outf (output_filename_of f)) with output_path in E.
    unfold image_save in E |- *. rewrite Ea, Ee in E |- *. cbn [fst snd] in E.
    specialize (E eq_refl).
    eexists _, _. split; [exact E|]. split; [by apply Hren|]. split.
    + split; [reflexivity|]. split; [reflexivity|]. by right.
    + intros _ Hnc. unfold abrir_escritura in Ea.
      rewrite Hnc in Ea. by destruct (is_dir _).
Qed.

(** C6, as the code has it: a failure of the decoding step and a failure
    of the write step are caught by the one handler of [procesar_imagen] and
    both return the failure of line 106, the one a segmentation exception
    returns too; the result tells the steps apart by nothing but the text and
    the trace of the exception. *)
Theorem C6_decode_and_write_share_handler (t : Task) (fs : filesystem)
    (e : excepcion) :
  (falla_decodificacion Image remove image_open_rgba t fs e →
   procesar_msg t fs = (fs, Return (ErrorCon (t.2) e))) ∧
  (falla_escritura Image remove image_open_rgba image_encode os_error denegado t fs e →
   ∃ fs', procesar_msg t fs = (fs', Return (ErrorCon (t.2) e))) ∧
  sitio (ErrorCon (t.2) e) = L106 ∧
  render (ErrorCon (t.2) e)
  = "❌ Error con " +:+ t.2 +:+ ": " +:+ exc_str e +:+ nl +:+ exc_tb e.
Proof.
  destruct t as [[inf outf] f]. cbn [snd]. split; [|split; [|done]].
  - intros (c & out & Hin & Hc & Hr & Ho & Hd).
    by eapply procesar_decodificar_lanza.
  - intros (c & out & img & Hin & Hc & Hr & Ho & Hd & Hs). eexists.
    by eapply procesar_guardar_lanza.
Qed.

(** C10: a result counts as a success exactly when its text contains the
    check mark; so a task whose file name contains the check mark is counted
    as a success whatever [procesar_imagen] returns for it, failures
    included. *)
Theorem C10_mark_in_filename_counts_as_success :
  (∀ i total r st,
     (Str.contains "✅" r = true →
      resultados_exitosos (contar i total r st) = S (resultados_exitosos st) ∧
      resultados_con_error (contar i total r st) = resultados_con_error st) ∧
     (Str.contains "✅" r = false →
      resultados_exitosos (contar i total r st) = resultados_exitosos st ∧
      resultados_con_error (contar i total r st) = S (resultados_con_error st))) ∧
  (∀ inf outf f fs, Str.contains "✅" f = true →
     ∃ fs' r, procesar (inf, outf, f) fs = (fs', Return r) ∧
       Str.contains "✅" r = true ∧
       ∀ i total st,
         resultados_exitosos (contar i total r st) = S (resultados_exitosos st) ∧
         resultados_con_error (contar i total r st) = resultados_con_error st).
Proof.
  assert (H1 : ∀ i total r st,
     (Str.contains "✅" r = true →
      resultados_exitosos (contar i total r st) = S (resultados_exitosos st) ∧
      resultados_con_error (contar i total r st) = resultados_con_error st) ∧
     (Str.contains "✅" r = false →
      resultados_exitosos (contar i total r st) = resultados_exitosos st ∧
      resultados_con_error (contar i total r st) = S (resultados_con_error st))).
  { intros i total r st. unfold contar.
    split; intros ->; cbn; split; lia. }
  split; [exact H1|].
  intros inf outf f fs Hf. rewrite procesar_resultado. eexists _, _.
  split; [reflexivity|].
  assert (Hr : Str.contains "✅" (resultado fs (inf, outf, f)) = true).
  { unfold resultado_en. apply render_contains_nombre.
    by rewrite mensaje_nombre. }
  split; [exact Hr|]. intros i total st. by apply H1.
Qed.

(** C7, as the code has it: [executor.map] hands the results over in the
    order the tasks were submitted, whatever the order the workers finish
    in; with a pool that stays up, line [i/N] reports the [i]-th file of
    [archivos], with the result that file has on the file system the batch
    started from. *)
Theorem C7_results_in_submission_order (inf : string) (listdir : list string)
    (p : PoolRun) (fs : filesystem) :
  Forall es_nombre listdir →
  buscar_archivos listdir ≠ [] →
  pool_sano (max_workers (buscar_archivos listdir))
    (length (buscar_archivos listdir)) p →
  ∃ st, main' inf listdir p fs = Resumen st ∧
    est_stdout st
    = imap (λ k f, {| li_i := S k;
                      li_total := length (buscar_archivos listdir);
                      li_texto := resultado fs
                        (inf, path_join inf "imagenes_sin_fondo", f) |})
        (buscar_archivos listdir).
Proof.
  intros Hn Hne Hp.
  destruct (main_sano_nombres Image remove image_open_rgba image_encode
              os_error denegado inf listdir p fs Hn Hne Hp) as (st & Hm & Hst & _).
  exists st. split; [exact Hm|]. rewrite Hst. cbn [est_stdout con_fs].
  rewrite contar_todos_stdout. cbn [est_stdout app].
  rewrite imap_fmap. apply imap_ext. by intros k f _.
Qed.


End Afirmaciones.

(** C8, as the code has it: the filter lowers the extension before it looks
    it up in [VALID_EXTENSIONS], so the extension is compared without regard
    to case; the names kept are those of the listing, unchanged and in its
    order. *)
Theorem C8_extension_filter_ignores_case (listdir : list string) :
  buscar_archivos listdir
  = filter (λ f, Str.lower (splitext f).2 ∈ VALID_EXTENSIONS) listdir ∧
  ∀ f, f ∈ buscar_archivos listdir ↔
       f ∈ listdir ∧ Str.lower (splitext f).2 ∈ VALID_EXTENSIONS.
Proof.
  assert (E : buscar_archivos listdir
    = filter (λ f, Str.lower (splitext f).2 ∈ VALID_EXTENSIONS) listdir).
  { rewrite buscar_archivos_filter. apply list_filter_iff. intros f.
    unfold es_imagen. apply bool_decide_eq_true. }
  split; [exact E|]. intros f. rewrite E, list_elem_of_filter. tauto.
Qed.

(** ** The claims on concrete runs *)

(** C8 as stated fails: [FOTO.JPG] is selected although its extension, as
    the listing spells it, is not in [VALID_EXTENSIONS]. *)
Lemma C8_counterexample :
  buscar_archivos ["notas.txt"; "FOTO.JPG"] = ["FOTO.JPG"] ∧
  (splitext "FOTO.JPG").2 = ".JPG" ∧
  ".JPG" ∉ VALID_EXTENSIONS.
Proof.
  split; [reflexivity|]. split; [reflexivity|].
  apply (bool_decide_eq_false_1 _). reflexivity.
Qed.

(** The filter on a listing with a capital extension. *)
Lemma C8_witness : "FOTO.JPG" ∈ buscar_archivos ["notas.txt"; "FOTO.JPG"].
Proof.
  apply (proj2 (C8_extension_filter_ignores_case ["notas.txt"; "FOTO.JPG"])).
  split; apply (bool_decide_eq_true_1 _); reflexivity.
Defined.

(** A task on an empty file system. *)
Lemma C5_witness :
  (∅ : filesystem) !! path_join "/in" "a.jpg" = None ∧
  Ejemplo.procesar_imagen_msg Ejemplo.tarea_a ∅ = (∅, Return (NoEncontrado "a.jpg")) ∧
  Ejemplo.procesar_imagen Ejemplo.tarea_a ∅
  = (∅, Return ("❌ Archivo no encontrado: " +:+ "a.jpg")).
Proof.
  split; [reflexivity|].
  apply (C5_missing_input_not_found Ejemplo.Image Ejemplo.remove
           Ejemplo.image_open_rgba Ejemplo.image_encode Ejemplo.os_error Ejemplo.denegado
           "/in" "/in/imagenes_sin_fondo" "a.jpg" ∅).
  reflexivity.
Defined.

(** C2 as stated fails: the result of a picture the model rejects names no
    reason.  It is the text of line 106, letter for letter the text that
    comes back when it is the decoder that raises the same exception; and it
    leaves through the [return] the failures of the decoder and of the
    encoder leave through. *)
Lemma C2_counterexample :
  Ejemplo.remove [Byte.xff] = Raise Ejemplo.e_modelo ∧
  Ejemplo.procesar_imagen Ejemplo.tarea_a Ejemplo.fs_modelo
  = (Ejemplo.fs_modelo,
     Return ("❌ Error con a.jpg: onnxruntime: inference failed" +:+ nl +:+
             "Traceback (most recent call last): remove")) ∧
  falla_decodificacion Ejemplo.Image Ejemplo.remove Ejemplo.image_open_rgba_roto
    Ejemplo.tarea_a Ejemplo.fs_dos Ejemplo.e_modelo ∧
  procesar_imagen Ejemplo.Image Ejemplo.remove Ejemplo.image_open_rgba_roto
    Ejemplo.image_encode Ejemplo.os_error Ejemplo.denegado
    Ejemplo.tarea_a Ejemplo.fs_dos
  = (Ejemplo.fs_dos,
     Return ("❌ Error con a.jpg: onnxruntime: inference failed" +:+ nl +:+
             "Traceback (most recent call last): remove")) ∧
  sitio (Ejemplo.mensaje_en Ejemplo.fs_modelo Ejemplo.tarea_a) = L106 ∧
  sitio (Ejemplo.mensaje_en Ejemplo.fs_decodificar Ejemplo.tarea_a) = L106 ∧
  sitio (Ejemplo.mensaje_en Ejemplo.fs_codificar Ejemplo.tarea_a) = L106.
Proof.
  split; [reflexivity|]. split; [vm_compute; reflexivity|]. split.
  { exists [Byte.x01], [Byte.x01]. repeat split; done. }
  split; [vm_compute; reflexivity|]. repeat split; vm_compute; reflexivity.
Qed.

(** A batch of two whose first picture the model rejects, the second task
    finishing first: both lines are printed, the failure first. *)
Lemma C2_witness :
  ∃ st, Ejemplo.main "/in" ["a.jpg"; "b.jpg"] Ejemplo.pool_invertido
          Ejemplo.fs_rechazo = Resumen st ∧
    est_stdout st
    = imap (λ j g, {| li_i := S j; li_total := 2;
                      li_texto := Ejemplo.resultado_en Ejemplo.fs_rechazo
                        ("/in", "/in/imagenes_sin_fondo", g) |})
        ["a.jpg"; "b.jpg"] ∧
    est_stdout st !! 0
    = Some {| li_i := 1; li_total := 2;
              li_texto := "❌ Error con " +:+ "a.jpg" +:+ ": "
                          +:+ exc_str Ejemplo.e_modelo +:+ nl
                          +:+ exc_tb Ejemplo.e_modelo |} ∧
    cuenta st = 2.
Proof.
  refine (proj1 (proj2 (proj2 (proj2 (proj2
    (C2_exception_caught_batch_goes_on Ejemplo.Image Ejemplo.remove
       Ejemplo.image_open_rgba Ejemplo.image_encode Ejemplo.os_error
       Ejemplo.denegado "/in" ["a.jpg"; "b.jpg"] Ejemplo.fs_rechazo
       0 "a.jpg" [Byte.xff] Ejemplo.e_modelo _ _ _ _ _)))))
    Ejemplo.pool_invertido _).
  - repeat constructor.
  - reflexivity.
  - reflexivity.
  - discriminate.
  - reflexivity.
  - split; [reflexivity|]. split; [apply perm_swap|reflexivity].
Defined.

(** C4 as stated fails: a picture that reaches the write step in a folder
    without [imagenes_sin_fondo] gets neither the success nor the failure of
    line 102: [save] raises, nothing is written, and the result is the
    failure of line 106; so it is when the encoder raises. *)
Lemma C4_counterexample :
  Ejemplo.fs_sin_carpeta !! path_join "/in" "a.jpg" = Some (File [Byte.x01]) ∧
  Ejemplo.remove [Byte.x01] = Return [Byte.x01] ∧
  Ejemplo.image_open_rgba [Byte.x01] = Return [Byte.x01] ∧
  Ejemplo.procesar_imagen_msg Ejemplo.tarea_a Ejemplo.fs_sin_carpeta
  = (Ejemplo.fs_sin_carpeta,
     Return (ErrorCon "a.jpg"
               (Ejemplo.os_error ENOENT "/in/imagenes_sin_fondo/a_sin_fondo.webp"))) ∧
  sitio (Ejemplo.mensaje_en Ejemplo.fs_sin_carpeta Ejemplo.tarea_a) = L106 ∧
  Ejemplo.fs_sin_carpeta !! "/in/imagenes_sin_fondo/a_sin_fondo.webp" = None ∧
  Ejemplo.procesar_imagen_msg Ejemplo.tarea_a Ejemplo.fs_codificar
  = (Ejemplo.fs_codificar, Return (ErrorCon "a.jpg" Ejemplo.e_codificar)).
Proof. repeat split; vm_compute; reflexivity. Qed.

(** A picture that goes through and is written. *)
Lemma C4_witness :
  ∃ fs' m,
    Ejemplo.procesar_imagen_msg Ejemplo.tarea_a Ejemplo.fs_dos = (fs', Return m) ∧
    Ejemplo.procesar_imagen Ejemplo.tarea_a Ejemplo.fs_dos = (fs', Return (render m)) ∧
    fs' = <["/in/imagenes_sin_fondo/a_sin_fondo.webp" := File [Byte.x01]]> Ejemplo.fs_dos ∧
    m = Exito "a.jpg" "a_sin_fondo.webp".
Proof.
  destruct (C4_write_step_outcomes Ejemplo.Image Ejemplo.remove
              Ejemplo.image_open_rgba Ejemplo.image_encode Ejemplo.os_error
              Ejemplo.denegado
              "/in" "/in/imagenes_sin_fondo" "a.jpg" Ejemplo.fs_dos
              [Byte.x01] [Byte.x01] [Byte.x01])
    as (fs' & m & H1 & H2 & H3 & _);
    [reflexivity|discriminate|reflexivity|discriminate|reflexivity|].
  exists fs', m. split; [exact H1|]. split; [exact H2|].
  assert (Es : image_save Ejemplo.Image Ejemplo.image_encode Ejemplo.os_error
                 Ejemplo.denegado [Byte.x01]
                 (path_join "/in/imagenes_sin_fondo"
                    (stem "a.jpg" +:+ "_sin_fondo.webp")) "WEBP" true 100%Z
                 Ejemplo.fs_dos
               = (<["/in/imagenes_sin_fondo/a_sin_fondo.webp" := File [Byte.x01]]>
                    Ejemplo.fs_dos, Return ()))
    by (vm_compute; reflexivity).
  cbv zeta in H3. rewrite Es in H3.
  destruct H3 as (-> & _ & data & _ & _ & He & _).
  split; [reflexivity|]. apply (proj2 He). exists [Byte.x01].
  split; [vm_compute; reflexivity|discriminate].
Defined.

(** C6 as stated fails: a picture the decoder rejects and a picture the
    encoder rejects both come back from the [return] of line 106, as does
    one the model rejects; the results carry no reason that tells the
    decoding step from the write step. *)
Lemma C6_counterexample :
  falla_decodificacion Ejemplo.Image Ejemplo.remove Ejemplo.image_open_rgba
    Ejemplo.tarea_a Ejemplo.fs_decodificar Ejemplo.e_decodificar ∧
  falla_escritura Ejemplo.Image Ejemplo.remove Ejemplo.image_open_rgba
    Ejemplo.image_encode Ejemplo.os_error Ejemplo.denegado
    Ejemplo.tarea_a Ejemplo.fs_codificar Ejemplo.e_codificar ∧
  sitio (Ejemplo.mensaje_en Ejemplo.fs_decodificar Ejemplo.tarea_a)
  = sitio (Ejemplo.mensaje_en Ejemplo.fs_codificar Ejemplo.tarea_a) ∧
  sitio (Ejemplo.mensaje_en Ejemplo.fs_decodificar Ejemplo.tarea_a)
  = sitio (Ejemplo.mensaje_en Ejemplo.fs_modelo Ejemplo.tarea_a).
Proof.
  split; [|split; [|split; reflexivity]].
  - exists [Byte.xfe], [Byte.xfe]. repeat split; done.
  - exists [Byte.xfd], [Byte.xfd], [Byte.xfd]. repeat split; done.
Qed.

(** A picture the decoder rejects and one the encoder rejects. *)
Lemma C6_witness :
  Ejemplo.procesar_imagen_msg Ejemplo.tarea_a Ejemplo.fs_decodificar
  = (Ejemplo.fs_decodificar, Return (ErrorCon "a.jpg" Ejemplo.e_decodificar)) ∧
  ∃ fs', Ejemplo.procesar_imagen_msg Ejemplo.tarea_a Ejemplo.fs_codificar
         = (fs', Return (ErrorCon "a.jpg" Ejemplo.e_codificar)).
Proof.
  split.
  - apply (proj1 (C6_decode_and_write_share_handler Ejemplo.Image Ejemplo.remove
             Ejemplo.image_open_rgba Ejemplo.image_encode Ejemplo.os_error Ejemplo.denegado
             Ejemplo.tarea_a Ejemplo.fs_decodificar Ejemplo.e_decodificar)).
    exists [Byte.xfe], [Byte.xfe].
    split; [reflexivity|]. split; [discriminate|]. split; [reflexivity|].
    split; [discriminate|reflexivity].
  - apply (proj1 (proj2 (C6_decode_and_write_share_handler Ejemplo.Image
             Ejemplo.remove Ejemplo.image_open_rgba Ejemplo.image_encode
             Ejemplo.os_error Ejemplo.denegado
             Ejemplo.tarea_a Ejemplo.fs_codificar Ejemplo.e_codificar))).
    exists [Byte.xfd], [Byte.xfd], [Byte.xfd].
    split; [reflexivity|]. split; [discriminate|]. split; [reflexivity|].
    split; [discriminate|]. split; reflexivity.
Defined.

(** Two workers, two tasks, the second finishing first. *)
Lemma pool_invertido_sano : pool_sano 2 2 Ejemplo.pool_invertido.
Proof. split; [reflexivity|]. split; [apply perm_swap|reflexivity]. Defined.

(** C7 as stated fails: the second task finishes first, and the lines
    still come in the order of submission, [a.jpg] then [b.jpg], not in the
    order the workers finished. *)
Lemma C7_counterexample :
  pool_sano (max_workers ["a.jpg"; "b.jpg"]) 2 Ejemplo.pool_invertido ∧
  Ejemplo.resumen_de
    (Ejemplo.main "/in" ["a.jpg"; "b.jpg"] Ejemplo.pool_invertido Ejemplo.fs_uno)
  = Some (1, 1,
      [ {| li_i := 1; li_total := 2;
           li_texto := "❌ Archivo no encontrado: a.jpg" |};
        {| li_i := 2; li_total := 2;
           li_texto := "✅ Procesado exitosamente: b.jpg → b_sin_fondo.webp" |} ]) ∧
  en_orden_de_finalizacion Ejemplo.Image Ejemplo.remove Ejemplo.image_open_rgba
    Ejemplo.image_encode Ejemplo.os_error Ejemplo.denegado
    [("/in", "/in/imagenes_sin_fondo", "a.jpg");
     ("/in", "/in/imagenes_sin_fondo", "b.jpg")]
    Ejemplo.pool_invertido Ejemplo.fs_uno
  = [ "✅ Procesado exitosamente: b.jpg → b_sin_fondo.webp";
      "❌ Archivo no encontrado: a.jpg" ].
Proof.
  split; [exact pool_invertido_sano|]. split; vm_compute; reflexivity.
Qed.

(** The lines of the run whose second task finishes first. *)
Lemma C7_witness :
  ∃ st, Ejemplo.main "/in" ["a.jpg"; "b.jpg"] Ejemplo.pool_invertido Ejemplo.fs_uno
        = Resumen st ∧
    est_stdout st
    = imap (λ k f, {| li_i := S k; li_total := 2;
                      li_texto := Ejemplo.resultado_en Ejemplo.fs_uno
                        ("/in", "/in/imagenes_sin_fondo", f) |})
        ["a.jpg"; "b.jpg"].
Proof.
  apply (C7_results_in_submission_order Ejemplo.Image Ejemplo.remove
           Ejemplo.image_open_rgba Ejemplo.image_encode Ejemplo.os_error Ejemplo.denegado
           "/in" ["a.jpg"; "b.jpg"] Ejemplo.pool_invertido Ejemplo.fs_uno).
  - repeat constructor.
  - discriminate.
  - exact pool_invertido_sano.
Defined.


(** A missing file whose name holds the check mark. *)
Lemma C10_witness :
  Str.contains "✅" "✅.jpg" = true ∧
  ∃ fs' r, Ejemplo.procesar_imagen ("/in", "/in/imagenes_sin_fondo", "✅.jpg") ∅
           = (fs', Return r) ∧
    Str.contains "✅" r = true ∧
    ∀ i total st,
      resultados_exitosos (contar i total r st) = S (resultados_exitosos st) ∧
      resultados_con_error (contar i total r st) = resultados_con_error st.
Proof.
  split; [reflexivity|].
  apply (proj2 (C10_mark_in_filename_counts_as_success Ejemplo.Image
           Ejemplo.remove Ejemplo.image_open_rgba Ejemplo.image_encode
           Ejemplo.os_error Ejemplo.denegado)).
  reflexivity.
Defined.

(** C1 fails on the code: the pool hands over the result of [a.jpg], then a
    worker dies; the fallback runs both files again and the counters, never
    reset, reach three for two tasks, [a.jpg] counted twice. *)
Theorem C1_pool_failure_double_counts :
  pool_roto (max_workers ["a.jpg"; "b.jpg"]) 2 Ejemplo.pool_muere ∧
  buscar_archivos ["a.jpg"; "b.jpg"] = ["a.jpg"; "b.jpg"] ∧
  Ejemplo.resumen_de
    (Ejemplo.main "/in" ["a.jpg"; "b.jpg"] Ejemplo.pool_muere Ejemplo.fs_dos)
  = Some (3, 0,
      [ {| li_i := 1; li_total := 2;
           li_texto := "✅ Procesado exitosamente: a.jpg → a_sin_fondo.webp" |};
        {| li_i := 1; li_total := 2;
           li_texto := "✅ Procesado exitosamente: a.jpg → a_sin_fondo.webp" |};
        {| li_i := 2; li_total := 2;
           li_texto := "✅ Procesado exitosamente: b.jpg → b_sin_fondo.webp" |} ]).
Proof.
  split; [|split; [reflexivity|vm_compute; reflexivity]].
  split; [by eexists|]. split; [apply NoDup_singleton|].
  split; [|reflexivity]. repeat constructor.
Qed.

(** C3 fails on the code: after the same pool failure the fallback does
    run each file once and in order, but its counts are added to the one the
    pool loop had made, three successes, where the sequential run alone
    counts two. *)
Theorem C3_fallback_counts_exceed_baseline :
  (let st := (Ejemplo.secuencial "/in" "/in/imagenes_sin_fondo" 2 1
                ["a.jpg"; "b.jpg"] (Ejemplo.st_inicial Ejemplo.fs_dos)).1 in
   (resultados_exitosos st, resultados_con_error st) = (2, 0)) ∧
  match Ejemplo.main "/in" ["a.jpg"; "b.jpg"] Ejemplo.pool_muere Ejemplo.fs_dos with
  | Resumen st => (resultados_exitosos st, resultados_con_error st) = (3, 0)
  | _ => False
  end.
Proof. split; vm_compute; reflexivity. Qed.

(** * Further properties of the program *)

(** ** Which names are candidates *)

Lemma rfind_from_absent (c : ascii) (s : string) (i last : Z) :
  Str.has_char c s = false → Str.rfind_from c s i last = last.
Proof.
  revert i last. induction s as [|d s IH]; intros i last H; [reflexivity|].
  cbn in H. apply orb_false_iff in H as [Hd Hs].
  cbn [Str.rfind_from]. rewrite Hd. by apply IH.
Qed.

Lemma rfind_from_lower (c : ascii) (s : string) (i last : Z) :
  (-1 ≤ last)%Z → (0 ≤ i)%Z → (-1 ≤ Str.rfind_from c s i last)%Z.
Proof.
  revert i last. induction s as [|d s IH]; intros i last Hl Hi; [done|].
  cbn [Str.rfind_from]. apply IH; [|lia]. destruct (Ascii.eqb d c); lia.
Qed.

(** X1: a name without a dot is no candidate, and neither is a name whose
    only dot is its first character: [splitext] gives both an empty
    extension.  So the folder [imagenes_sin_fondo], which [main] creates
    inside the input folder before it lists it, is never processed, and a
    file named [.jpg] is skipped. *)
Theorem X1_no_extension_not_candidate (f : string) (listdir : list string) :
  Str.has_char extsep f = false ∨
  (∃ s, f = String extsep s ∧ Str.has_char extsep s = false ∧
        Str.has_char sep s = false) →
  (splitext f).2 = "" ∧ es_imagen f = false ∧ f ∉ buscar_archivos listdir.
Proof.
  intros H.
  assert (E : (splitext f).2 = "").
  { unfold splitext. destruct H as [H|(s & -> & Hd & Hs)].
    - unfold Str.rfind. cbn zeta.
      rewrite (rfind_from_absent extsep f) by done.
      pose proof (rfind_from_lower sep f 0 (-1)) as Hl.
      destruct (Z.gtb_spec (-1) (Str.rfind_from sep f 0 (-1))); [lia|done].
    - unfold Str.rfind. cbn zeta. cbn [Str.rfind_from].
      change (Ascii.eqb extsep extsep) with true.
      change (Ascii.eqb extsep sep) with false.
      rewrite (rfind_from_absent extsep s), (rfind_from_absent sep s) by done.
      reflexivity. }
  assert (E' : es_imagen f = false).
  { unfold es_imagen. rewrite E. reflexivity. }
  split; [exact E|]. split; [exact E'|].
  rewrite buscar_archivos_filter, list_elem_of_filter. intros [Hf _]. congruence.
Qed.

(** A folder name without a dot, and a name that is only an extension. *)
Lemma X1_witness :
  ("imagenes_sin_fondo" ∉ buscar_archivos ["a.jpg"; "imagenes_sin_fondo"; ".jpg"]) ∧
  (".jpg" ∉ buscar_archivos ["a.jpg"; "imagenes_sin_fondo"; ".jpg"]).
Proof.
  split.
  - apply (X1_no_extension_not_candidate "imagenes_sin_fondo"). left. reflexivity.
  - apply (X1_no_extension_not_candidate ".jpg"). right. exists "jpg".
    split; [reflexivity|]. split; reflexivity.
Defined.

(** ** Invariants of the loops *)

Section Invariantes.

Variable Image : Type.
Variable remove : bytes → outcome bytes.
Variable image_open_rgba : bytes → outcome Image.
Variable image_encode : Image → string → bool → Z → outcome bytes.
Variable os_error : os_fault → string → excepcion.
Variable denegado : string → option excepcion.

Abbreviation procesar_msg :=
  (procesar_imagen_msg Image remove image_open_rgba image_encode os_error denegado).
Abbreviation procesar :=
  (procesar_imagen Image remove image_open_rgba image_encode os_error denegado).
Abbreviation mensaje :=
  (mensaje_en Image remove image_open_rgba image_encode os_error denegado).
Abbreviation resultado :=
  (resultado_en Image remove image_open_rgba image_encode os_error denegado).
Abbreviation secuencial' :=
  (secuencial Image remove image_open_rgba image_encode os_error denegado).
Abbreviation ejecutar_tarea' :=
  (ejecutar_tarea Image remove image_open_rgba image_encode os_error denegado).
Abbreviation trabajadores' :=
  (trabajadores Image remove image_open_rgba image_encode os_error denegado).
Abbreviation pool_loop' :=
  (pool_loop Image remove image_open_rgba image_encode os_error denegado).
Abbreviation main' :=
  (main Image remove image_open_rgba image_encode os_error denegado).
Abbreviation estable' :=
  (estable Image remove image_open_rgba image_encode os_error denegado).

Lemma contar_todos_estable tareas total I i rs st :
  estable' tareas total I → I st → I (contar_todos total i rs st).
Proof.
  intros [Hc _]. revert i st.
  induction rs as [|r rs IH]; intros i st H; cbn [contar_todos]; auto.
Qed.

Lemma secuencial_estable inf outf total I i archivos st :
  estable' ((λ f, (inf, outf, f)) <$> archivos) total I →
  I st → I (secuencial' inf outf total i archivos st).1.
Proof.
  revert i st. induction archivos as [|f l IH]; intros i st [Hc Hp] H;
    cbn [secuencial]; [done|].
  rewrite procesar_resultado. apply IH.
  - split; [exact Hc|]. intros t st' Ht. apply Hp. cbn. by right.
  - apply Hc. apply (Hp (inf, outf, f)); [cbn; by left|done].
Qed.

Lemma pool_loop_estable tareas total I p st :
  estable' tareas total I → I st → I (pool_loop' tareas total p st).1.
Proof.
  intros HI H. unfold pool_loop, trabajadores.
  assert (Hw : ∀ orden w, I (con_fs w.1 st) →
            I (con_fs (fold_left (ejecutar_tarea' tareas) orden w).1 st)).
  { induction orden as [|k l IH]; intros w Hw; cbn [fold_left]; [done|].
    apply IH. unfold ejecutar_tarea.
    destruct (tareas !! k) as [t|] eqn:Et; [|done].
    rewrite procesar_resultado. cbn [fst].
    apply (proj2 HI t (con_fs w.1 st)); [|done].
    by eapply list_elem_of_lookup_2. }
  specialize (Hw (completadas p) (est_fs st, ∅)). cbn [fst] in Hw.
  rewrite con_fs_est_fs in Hw. specialize (Hw H).
  destruct (fold_left _ _ _) as [fs' fut]. cbn [fst] in Hw.
  destruct (consumir_prefijo fut (fallo p) total 1 (seq 0 (length tareas))
              (con_fs fs' st)) as (rs & fin & -> & _).
  cbn [fst]. by apply (contar_todos_estable tareas).
Qed.

(** A stable property of the starting state holds of the state [main]
    prints its summary from. *)
Lemma main_estable inf listdir p fs st I :
  estable' ((λ f, (inf, path_join inf "imagenes_sin_fondo", f))
             <$> buscar_archivos listdir)
    (length (buscar_archivos listdir)) I →
  I {| est_fs := fs; resultados_exitosos := 0;
       resultados_con_error := 0; est_stdout := [] |} →
  main' inf listdir p fs = Resumen st → I st.
Proof.
  intros HI H0. unfold main. case_bool_decide; [done|].
  pose proof (pool_loop_estable _ _ I p _ HI H0) as H1.
  destruct (pool_loop' _ _ _ _) as [st1 [|e|]]; cbn [fst] in H1; [| |done].
  - by intros [= <-].
  - pose proof (secuencial_estable inf (path_join inf "imagenes_sin_fondo")
                  _ I 1 _ st1 HI H1) as H2.
    destruct (secuencial' _ _ _ _ _ _) as [st2 [e2|]]; [done|].
    by intros [= <-].
Qed.

(** The same for every way the batch can end. *)
Lemma main_estable_fin inf listdir p fs I :
  estable' ((λ f, (inf, path_join inf "imagenes_sin_fondo", f))
             <$> buscar_archivos listdir)
    (length (buscar_archivos listdir)) I →
  I {| est_fs := fs; resultados_exitosos := 0;
       resultados_con_error := 0; est_stdout := [] |} →
  match main' inf listdir p fs with
  | SinImagenes => True
  | Resumen st | NoCapturada _ st | Colgado st => I st
  end.
Proof.
  intros HI H0. unfold main. case_bool_decide; [done|].
  pose proof (pool_loop_estable _ _ I p _ HI H0) as H1.
  destruct (pool_loop' _ _ _ _) as [st1 [|e|]]; cbn [fst] in H1; [done| |done].
  pose proof (secuencial_estable inf (path_join inf "imagenes_sin_fondo")
                _ I 1 _ st1 HI H1) as H2.
  by destruct (secuencial' _ _ _ _ _ _) as [st2 [e2|]].
Qed.

End Invariantes.

Section Lotes.

Variable Image : Type.
Variable remove : bytes → outcome bytes.
Variable image_open_rgba : bytes → outcome Image.
Variable image_encode : Image → string → bool → Z → outcome bytes.
Variable os_error : os_fault → string → excepcion.
Variable denegado : string → option excepcion.

Abbreviation procesar_msg :=
  (procesar_imagen_msg Image remove image_open_rgba image_encode os_error denegado).
Abbreviation secuencial' :=
  (secuencial Image remove image_open_rgba image_encode os_error denegado).
Abbreviation main' :=
  (main Image remove image_open_rgba image_encode os_error denegado).
Abbreviation estable' :=
  (estable Image remove image_open_rgba image_encode os_error denegado).

Lemma cuenta_lineas_estable tareas total : estable' tareas total cuenta_lineas.
Proof.
  split; [|done]. intros i r st [He Hf]. unfold cuenta_lineas.
  rewrite contar_stdout, !filter_app, !length_app, <- He, <- Hf.
  rewrite !filter_cons, !filter_nil. unfold contar, con_marca. cbn [li_texto].
  destruct (Str.contains "✅" r) eqn:E; cbn.
  - rewrite decide_True, decide_False by (try done; by intros []). cbn. lia.
  - rewrite decide_False, decide_True by done. cbn. lia.
Qed.

(** X2: in every run of [main] that reaches its summary, whatever the pool
    did, the two counters are the numbers of printed lines with and without
    the check mark, and the closing line announces a completed run exactly
    when some printed line holds the mark. *)
Theorem X2_counters_match_lines (inf : string) (listdir : list string)
    (p : PoolRun) (fs : filesystem) (st : Estado) :
  main' inf listdir p fs = Resumen st →
  cuenta_lineas st ∧
  (mensaje_final st = nl +:+ "🎉 ¡Procesamiento completado!" ↔
   ∃ l, l ∈ est_stdout st ∧ con_marca l).
Proof.
  intros Hm.
  assert (H : cuenta_lineas st).
  { eapply main_estable; [apply cuenta_lineas_estable| |exact Hm].
    by split. }
  split; [exact H|]. destruct H as [He _]. unfold mensaje_final. rewrite He.
  destruct (filter con_marca (est_stdout st)) as [|l ls] eqn:E; cbn.
  - split; [discriminate|]. intros (l & Hl & Hc).
    assert (Hin : l ∈ filter con_marca (est_stdout st))
      by (by apply list_elem_of_filter).
    rewrite E in Hin. by apply elem_of_nil in Hin.
  - split; [|done]. intros _. exists l.
    assert (Hin : l ∈ filter con_marca (est_stdout st)) by (rewrite E; by left).
    apply list_elem_of_filter in Hin as [? ?]. done.
Qed.

Lemma solo_escribe_refl salidas fs : solo_escribe salidas fs fs.
Proof. by repeat split. Qed.

Lemma solo_escribe_trans salidas fs1 fs2 fs3 :
  solo_escribe salidas fs1 fs2 → solo_escribe salidas fs2 fs3 →
  solo_escribe salidas fs1 fs3.
Proof.
  intros (A1 & B1 & C1) (A2 & B2 & C2). repeat split.
  - intros p Hp. by rewrite A2, A1.
  - intros p. by rewrite B2, B1.
  - intros p Hp. auto.
Qed.

Lemma procesar_msg_solo_escribe salidas t fs :
  output_path_of t ∈ salidas → solo_escribe salidas fs (procesar_msg t fs).1.
Proof.
  intros Ht. destruct (procesar_msg_fs Image remove image_open_rgba
    image_encode os_error denegado t fs) as [->|(Hd & d & ->)];
    [apply solo_escribe_refl|].
  repeat split.
  - intros p Hp. apply lookup_insert_ne. intros E. apply Hp. by rewrite <- E.
  - intros p. destruct (decide (output_path_of t = p)) as [<-|Hne].
    + by rewrite lookup_insert_eq, Hd.
    + by rewrite lookup_insert_ne.
  - intros p Hp. destruct (decide (output_path_of t = p)) as [<-|Hne].
    + rewrite lookup_insert_eq. by eexists.
    + by rewrite lookup_insert_ne.
Qed.

(** X3: a run of [main] that reaches its summary has written at most the
    output paths of its candidates, [imagenes_sin_fondo/<stem>_sin_fondo.webp]:
    every other path holds what it held, no entry of the file system is
    gone, and no directory was replaced or created, whatever the pool did. *)
Theorem X3_batch_writes_only_outputs (inf : string) (listdir : list string)
    (p : PoolRun) (fs : filesystem) (st : Estado) :
  main' inf listdir p fs = Resumen st →
  solo_escribe
    ((λ f, path_join (path_join inf "imagenes_sin_fondo") (output_filename_of f))
       <$> buscar_archivos listdir)
    fs (est_fs st).
Proof.
  intros Hm.
  set (salidas := (λ f, path_join (path_join inf "imagenes_sin_fondo")
                          (output_filename_of f)) <$> buscar_archivos listdir).
  apply (main_estable Image remove image_open_rgba image_encode os_error denegado
    inf listdir p fs st (λ st, solo_escribe salidas fs (est_fs st)));
    [|apply solo_escribe_refl|exact Hm].
  split.
  - intros i r st' H. by rewrite contar_fs.
  - intros t st' Ht H. cbn [est_fs con_fs].
    eapply solo_escribe_trans; [exact H|]. apply procesar_msg_solo_escribe.
    apply list_elem_of_fmap in Ht as (f & -> & Hf).
    unfold salidas.
    change (output_path_of (inf, path_join inf "imagenes_sin_fondo", f))
      with ((λ f, path_join (path_join inf "imagenes_sin_fondo")
                    (output_filename_of f)) f).
    by apply list_elem_of_fmap_2.
Qed.

(** X4: with names from a directory listing and a pool that stays up, the
    order in which the workers finish changes nothing in the summary: lines
    and counters are those of the fallback loop run alone on the same file
    system. *)
Theorem X4_pool_agrees_with_sequential (inf : string) (listdir : list string)
    (p : PoolRun) (fs : filesystem) :
  Forall es_nombre listdir →
  buscar_archivos listdir ≠ [] →
  pool_sano (max_workers (buscar_archivos listdir))
    (length (buscar_archivos listdir)) p →
  ∃ st stb,
    main' inf listdir p fs = Resumen st ∧
    secuencial' inf (path_join inf "imagenes_sin_fondo")
      (length (buscar_archivos listdir)) 1 (buscar_archivos listdir)
      {| est_fs := fs; resultados_exitosos := 0;
         resultados_con_error := 0; est_stdout := [] |} = (stb, None) ∧
    est_stdout st = est_stdout stb ∧
    resultados_exitosos st = resultados_exitosos stb ∧
    resultados_con_error st = resultados_con_error stb.
Proof.
  intros Hn Hne Hp.
  destruct (main_sano_nombres Image remove image_open_rgba image_encode
              os_error denegado inf listdir p fs Hn Hne Hp) as (st & Hm & Hst & _).
  apply buscar_archivos_nombres in Hn.
  destruct (secuencial_conserva Image remove image_open_rgba image_encode
              os_error denegado (path_join inf <$> buscar_archivos listdir) fs inf
              (path_join inf "imagenes_sin_fondo")
              (length (buscar_archivos listdir)) 1 (buscar_archivos listdir)
              {| est_fs := fs; resultados_exitosos := 0;
                 resultados_con_error := 0; est_stdout := [] |}
              (separadas_main inf _ Hn) (conserva_refl _ fs))
    as (fs' & _ & Hs).
  eexists st, _. split; [exact Hm|]. split; [exact Hs|].
  rewrite Hst. done.
Qed.

End Lotes.

(** ** The mark in the returned texts *)

(** A three-character pattern occurs in [a +:+ b] where it occurs in [a] or
    in [b], when [b] does not start with its second or third character. *)
Lemma contains3_app (c1 c2 c3 : ascii) (a b : string) :
  match b with
  | EmptyString => True
  | String d _ => d ≠ c2 ∧ d ≠ c3
  end →
  Str.contains (String c1 (String c2 (String c3 ""))) (a +:+ b)
  = Str.contains (String c1 (String c2 (String c3 ""))) a
    || Str.contains (String c1 (String c2 (String c3 ""))) b.
Proof.
  intros Hb. induction a as [|e a IH].
  - rewrite app_empty_l. reflexivity.
  - rewrite app_cons. cbn [Str.contains]. rewrite IH, orb_assoc. f_equal. f_equal.
    cbn [String.prefix]. destruct (ascii_dec c1 e) as [_|_]; [|reflexivity].
    destruct a as [|e2 a].
    + rewrite app_empty_l. destruct b as [|d b]; [reflexivity|].
      destruct Hb as [Hd _]. cbn [String.prefix].
      destruct (ascii_dec c2 d); [congruence|reflexivity].
    + rewrite app_cons. cbn [String.prefix].
      destruct (ascii_dec c2 e2) as [_|_]; [|reflexivity].
      destruct a as [|e3 a].
      * rewrite app_empty_l. destruct b as [|d b]; [reflexivity|].
        destruct Hb as [_ Hd]. cbn [String.prefix].
        destruct (ascii_dec c3 d); [congruence|reflexivity].
      * rewrite app_cons. cbn [String.prefix].
        destruct (ascii_dec c3 e3); [|reflexivity].
        by rewrite !prefix_empty.
Qed.

(** X5: when neither the file name nor, for the failure of line 106, the
    text and the trace of the exception hold the check mark, the text of a
    message holds the mark exactly when the message is the success of line
    100: on such inputs counting by the mark counts the successes. *)
Theorem X5_mark_detects_success (m : Mensaje) :
  Str.contains "✅" (nombre_de m) = false →
  (∀ f e, m = ErrorCon f e →
     Str.contains "✅" (exc_str e) = false ∧ Str.contains "✅" (exc_tb e) = false) →
  (Str.contains "✅" (render m) = true ↔ sitio m = L100) ∧
  ∀ i total st,
    resultados_exitosos (contar i total (render m) st)
    = resultados_exitosos st + (if decide (sitio m = L100) then 1 else 0).
Proof.
  intros Hf He.
  assert (H : Str.contains "✅" (render m) = bool_decide (sitio m = L100)).
  { destruct m as [f|f|f|f o|f|f e]; cbn [nombre_de] in Hf; cbn [render sitio].
    - change (Str.contains "✅" f = false). exact Hf.
    - change (Str.contains "✅" f = false). exact Hf.
    - change (Str.contains "✅" (f +:+ ": rembg no devolvió datos") = false).
      rewrite (contains3_app _ _ _ f) by (split; discriminate).
      rewrite Hf. reflexivity.
    - reflexivity.
    - change (Str.contains "✅" f = false). exact Hf.
    - destruct (He f e eq_refl) as [Hs Ht].
      change (Str.contains "✅" (f +:+ ": " +:+ exc_str e +:+ nl +:+ exc_tb e) = false).
      rewrite (contains3_app _ _ _ f) by (split; discriminate). rewrite Hf.
      change (Str.contains "✅" (exc_str e +:+ nl +:+ exc_tb e) = false).
      rewrite (contains3_app _ _ _ (exc_str e)) by (split; discriminate).
      rewrite Hs. change (Str.contains "✅" (exc_tb e) = false). exact Ht. }
  split.
  - rewrite H. apply bool_decide_eq_true.
  - intros i total st. unfold contar. rewrite H.
    destruct (decide (sitio m = L100)) as [E|E].
    + rewrite bool_decide_true by done. reflexivity.
    + rewrite bool_decide_false by done. cbn. lia.
Qed.

(** A failure about a file with a plain name. *)
Lemma X5_witness :
  Str.contains "✅" (render (ErrorCon "a.jpg" Ejemplo.e_modelo)) = true ↔
  sitio (ErrorCon "a.jpg" Ejemplo.e_modelo) = L100.
Proof.
  apply (X5_mark_detects_success (ErrorCon "a.jpg" Ejemplo.e_modelo)).
  - reflexivity.
  - intros f e [= <- <-]. split; reflexivity.
Defined.

(** ** What each result says about the files *)

Section Resultados.

Variable Image : Type.
Variable remove : bytes → outcome bytes.
Variable image_open_rgba : bytes → outcome Image.
Variable image_encode : Image → string → bool → Z → outcome bytes.
Variable os_error : os_fault → string → excepcion.
Variable denegado : string → option excepcion.

Abbreviation procesar_msg :=
  (procesar_imagen_msg Image remove image_open_rgba image_encode os_error denegado).
Abbreviation mensaje :=
  (mensaje_en Image remove image_open_rgba image_encode os_error denegado).

(** X6: whenever [procesar_imagen] returns the success of line 100, the
    input was a file with content, the model and the decoder returned, and
    the file at the output path afterwards is the encoder's output, not
    empty; the message names the file and its output name. *)
Theorem X6_success_means_written (t : Task) (fs fs' : filesystem) (m : Mensaje) :
  procesar_msg t fs = (fs', Return m) → sitio m = L100 →
  m = Exito (t.2) (output_filename_of (t.2)) ∧
  ∃ c out img d,
    fs !! input_path_of t = Some (File c) ∧ c ≠ [] ∧
    remove c = Return out ∧ out ≠ [] ∧
    image_open_rgba out = Return img ∧
    image_encode img "WEBP" true 100%Z = Return d ∧ d ≠ [] ∧
    fs' = <[output_path_of t := File d]> fs.
Proof.
  destruct t as [[inf outf] f].
  unfold input_path_of, output_path_of, output_filename_of. cbn [snd].
  intros H Hs.
  destruct (fs !! path_join inf f) as [[c|sz]|] eqn:Ein.
  2: { rewrite (procesar_es_directorio _ _ _ _ _ _ _ _ _ _ sz Ein) in H.
       by injection H as <- <-. }
  2: { rewrite (procesar_no_encontrado _ _ _ _ _ _ _ _ _ _ Ein) in H.
       by injection H as <- <-. }
  destruct (decide (c = [])) as [->|Hc].
  { rewrite (procesar_sin_datos _ _ _ _ _ _ _ _ _ _ Ein) in H.
    by injection H as <- <-. }
  destruct (remove c) as [out|e] eqn:Er.
  2: { rewrite (procesar_remove_lanza _ _ _ _ _ _ _ _ _ _ c e Ein Hc Er) in H.
       by injection H as <- <-. }
  destruct (decide (out = [])) as [->|Ho].
  { rewrite (procesar_remove_vacio _ _ _ _ _ _ _ _ _ _ c Ein Hc Er) in H.
    by injection H as <- <-. }
  destruct (image_open_rgba out) as [img|e] eqn:Ed.
  2: { rewrite (procesar_decodificar_lanza _ _ _ _ _ _ _ _ _ _ c out e
                  Ein Hc Er Ho Ed) in H.
       by injection H as <- <-. }
  destruct (image_save Image image_encode os_error denegado img
              (path_join outf (output_filename_of f)) "WEBP" true 100%Z fs)
    as [fs1 [[]|e]] eqn:Es.
  2: { rewrite (procesar_guardar_lanza _ _ _ _ _ _ _ _ _ _ c out img e
                  Ein Hc Er Ho Ed) in H by (by rewrite Es).
       by injection H as <- <-. }
  apply image_save_returns in Es as (Ea & d & Ee & _).
  rewrite (procesar_escrito _ _ _ _ _ _ _ _ _ _ c out img d
             Ein Hc Er Ho Ed Ea Ee) in H.
  injection H as <- <-. case_bool_decide as Hd; [done|].
  split; [reflexivity|]. by exists c, out, img, d.
Qed.




End Resultados.

(** ** Quotes, folders and the model directory *)

Lemma rstrip_char_app_char (c : ascii) (s : string) :
  rstrip_char c (s +:+ String c "") = rstrip_char c s.
Proof.
  induction s as [|d s IH]; cbn [rstrip_char].
  - rewrite app_empty_l. cbn. by rewrite Ascii.eqb_refl.
  - rewrite app_cons. cbn [rstrip_char]. by rewrite IH.
Qed.

Lemma lstrip_char_app_char (c : ascii) (s : string) :
  lstrip_char c (s +:+ String c "") = lstrip_char c s ∨
  lstrip_char c (s +:+ String c "") = lstrip_char c s +:+ String c "".
Proof.
  induction s as [|d s IH].
  - left. rewrite app_empty_l. cbn. by rewrite Ascii.eqb_refl.
  - rewrite app_cons. cbn [lstrip_char]. destruct (Ascii.eqb d c); [exact IH|].
    right. by rewrite app_cons.
Qed.

Lemma strip_char_quoted (c : ascii) (s : string) :
  strip_char c (String c (s +:+ String c "")) = strip_char c s.
Proof.
  unfold strip_char. cbn [lstrip_char]. rewrite Ascii.eqb_refl.
  destruct (lstrip_char_app_char c s) as [->| ->]; [reflexivity|].
  apply rstrip_char_app_char.
Qed.

Lemma rstrip_char_keeps (c : ascii) (s : string) :
  s ≠ "" → Str.endswith_char s c = false → rstrip_char c s = s.
Proof.
  unfold Str.endswith_char. induction s as [|d s IH]; [done|]. intros _ H.
  cbn [rstrip_char]. destruct s as [|d' s].
  - cbn in *. by rewrite H.
  - rewrite IH; [reflexivity|done|]. exact H.
Qed.

Lemma rfind_from_app (c : ascii) (a b : string) (i last : Z) :
  Str.rfind_from c (a +:+ b) i last
  = Str.rfind_from c b (i + Z.of_nat (String.length a))%Z (Str.rfind_from c a i last).
Proof.
  revert i last. induction a as [|d a IH]; intros i last.
  - rewrite app_empty_l. cbn. by rewrite Z.add_0_r.
  - rewrite app_cons. cbn [Str.rfind_from String.length]. rewrite IH.
    f_equal. lia.
Qed.

Lemma substring_app_l (a b : string) :
  String.substring 0 (String.length a) (a +:+ b) = a.
Proof.
  induction a as [|d a IH].
  - rewrite app_empty_l. by destruct b.
  - rewrite app_cons. cbn. by rewrite IH.
Qed.

Lemma length_app_str (a b : string) :
  String.length (a +:+ b) = String.length a + String.length b.
Proof. induction a as [|d a IH]; [done|]. rewrite app_cons. cbn. by rewrite IH. Qed.

Lemma repeat_char_endswith (c : ascii) (n : nat) :
  repeat_char c n ≠ "" → Str.endswith_char (repeat_char c n) c = true.
Proof.
  unfold Str.endswith_char. induction n as [|n IH]; [done|]. intros _.
  cbn [repeat_char Str.last_char]. destruct n as [|n].
  - cbn. apply Ascii.eqb_refl.
  - apply IH. done.
Qed.

Lemma repeat_char_app_char (c : ascii) (d : string) (n : nat) :
  d +:+ String c "" = repeat_char c (S n) → d = repeat_char c n.
Proof.
  revert n. induction d as [|x d IH]; intros n E.
  - rewrite app_empty_l in E. cbn in E. injection E as E. by destruct n.
  - rewrite app_cons in E. cbn in E. injection E as -> E.
    destruct n as [|n]; [by destruct d|]. cbn. f_equal. by apply IH.
Qed.

(** The directory of [d/name] is [d]. *)
Lemma path_dirname_join (d name : string) :
  d ≠ "" → Str.endswith_char d sep = false → Str.has_char sep name = false →
  path_dirname (d +:+ String sep "" +:+ name) = d.
Proof.
  intros Hd He Hn. unfold path_dirname, Str.rfind. cbn zeta.
  rewrite rfind_from_app, rfind_from_app. cbn [Str.rfind_from String.length].
  change (Ascii.eqb sep sep) with true.
  rewrite (rfind_from_absent sep name) by done.
  unfold Str.take.
  replace (Z.to_nat (0 + Z.of_nat (String.length d) + 1))
    with (String.length (d +:+ String sep "")) by (rewrite length_app_str; cbn; lia).
  rewrite <- app_assoc_str, substring_app_l.
  assert (H1 : String.eqb (d +:+ String sep "") "" = false).
  { apply String.eqb_neq. destruct d; discriminate. }
  assert (H2 : String.eqb (d +:+ String sep "")
                 (repeat_char sep (String.length (d +:+ String sep ""))) = false).
  { apply String.eqb_neq. rewrite length_app_str. cbn [String.length].
    replace (String.length d + 1) with (S (String.length d)) by lia.
    intros E. apply repeat_char_app_char in E as E'.
    pose proof (repeat_char_endswith sep (String.length d)) as Hr.
    rewrite <- E' in Hr. rewrite Hr in He by done. discriminate. }
  rewrite H1, H2. cbn [negb andb].
  rewrite rstrip_char_app_char. by apply rstrip_char_keeps.
Qed.

(** The double quote is no white space and ends no white space. *)
Lemma es_espacio2_comilla (a : ascii) : Str.es_espacio2 a comilla = false.
Proof.
  unfold Str.es_espacio2. cbv zeta.
  by destruct (N_of_ascii a =? 194)%N.
Qed.

Lemma es_espacio3_comilla (a b : ascii) : Str.es_espacio3 a b comilla = false.
Proof.
  unfold Str.es_espacio3. cbv zeta.
  destruct (N_of_ascii a =? 225)%N, (N_of_ascii a =? 226)%N,
    (N_of_ascii a =? 227)%N, (N_of_ascii b =? 154)%N,
    (N_of_ascii b =? 128)%N, (N_of_ascii b =? 129)%N; reflexivity.
Qed.

Lemma lstrip_comilla (x : string) :
  Str.lstrip (String comilla x) = String comilla x.
Proof. destruct x as [|b [|c r]]; reflexivity. Qed.

(** A string that ends with a double quote is not all white space. *)
Lemma lstrip_app_comilla (y : string) :
  Str.lstrip (y +:+ String comilla "") ≠ "".
Proof.
  assert (H : ∀ n y, String.length y ≤ n →
            Str.lstrip (y +:+ String comilla "") ≠ "").
  { induction n as [|n IH]; intros [|a r] Hl; cbn [String.length] in Hl;
      try lia; try (rewrite app_empty_l; discriminate).
    rewrite app_cons. cbn [Str.lstrip].
    destruct (Str.es_espacio1 a); [apply IH; lia|].
    destruct r as [|b r2].
    { rewrite app_empty_l. by rewrite es_espacio2_comilla. }
    rewrite app_cons. destruct (Str.es_espacio2 a b).
    { apply IH. cbn [String.length] in Hl. lia. }
    destruct r2 as [|c r3].
    { rewrite app_empty_l. by rewrite es_espacio3_comilla. }
    rewrite app_cons. destruct (Str.es_espacio3 a b c); [|discriminate].
    apply IH. cbn [String.length] in Hl. lia. }
  by apply (H (String.length y)).
Qed.

Lemma rstrip_app_comilla (x : string) :
  Str.rstrip (x +:+ String comilla "") = x +:+ String comilla "".
Proof.
  induction x as [|a x IH]; [reflexivity|].
  rewrite app_cons. cbn [Str.rstrip]. unfold Str.solo_espacios.
  rewrite <- app_cons.
  destruct (String.eqb_spec (Str.lstrip (String a x +:+ String comilla "")) "")
    as [E|_]; [by apply lstrip_app_comilla in E|].
  rewrite app_cons. by rewrite IH.
Qed.

(** [strip()] leaves a text between double quotes as it is. *)
Lemma strip_entre_comillas (s : string) :
  Str.strip (String comilla (s +:+ String comilla ""))
  = String comilla (s +:+ String comilla "").
Proof.
  unfold Str.strip. rewrite lstrip_comilla, <- app_cons.
  apply rstrip_app_comilla.
Qed.

Section EntornoProps.

Variable Image : Type.
Variable remove : bytes → outcome bytes.
Variable image_open_rgba : bytes → outcome Image.
Variable image_encode : Image → string → bool → Z → outcome bytes.
Variable os_error : os_fault → string → excepcion.
Variable e_existe : string → excepcion.
Variable denegado : string → option excepcion.
Variable tam_dir : Z.
Variable no_borrable : string → option excepcion.

Abbreviation main' :=
  (main Image remove image_open_rgba image_encode os_error denegado).
Abbreviation makedirs' := (makedirs_exist_ok e_existe denegado tam_dir).
Abbreviation verificar' := (verificar_permisos os_error denegado no_borrable).
Abbreviation setup' := (setup_u2net_path e_existe denegado tam_dir).
Abbreviation abrir' := (abrir_escritura os_error denegado).
Abbreviation main_completo' :=
  (main_completo Image remove image_open_rgba image_encode os_error
     e_existe denegado tam_dir no_borrable).

(** [makedirs] changes no entry that is there; it can only add a
    directory at its path. *)
Lemma makedirs_conserva (p : string) (fs : filesystem) :
  ∀ q, is_Some (fs !! q) → (makedirs' p fs).1 !! q = fs !! q.
Proof.
  intros q Hq. unfold makedirs_exist_ok.
  destruct (fs !! p) as [[?|?]|] eqn:E; try done.
  destruct (denegado p); [done|]. cbn.
  apply lookup_insert_ne. intros ->. rewrite E in Hq. by destruct Hq.
Qed.

(** [verificar_permisos] always returns.  It answers [True] exactly when
    the probe [folder/test_write.tmp] can be opened for writing and the
    system lets it be removed, and then nothing is left at the probe path;
    on [False] the file system is as it was, or the probe was written and
    could not be removed.  No other path changes. *)
Lemma verificar_permisos_spec (folder : string) (fs : filesystem) :
  let test_file := path_join folder "test_write.tmp" in
  ∃ b fs', verificar' folder fs = (fs', Return b) ∧
    (b = true ↔ abrir' test_file fs = None ∧ no_borrable test_file = None) ∧
    (b = true → fs' = delete test_file fs) ∧
    (b = false →
     fs' = fs ∨
     (abrir' test_file fs = None ∧ is_Some (no_borrable test_file) ∧
      fs' = <[test_file := File [Byte.x74; Byte.x65; Byte.x73; Byte.x74]]> fs)) ∧
    (∀ q, q ≠ test_file → fs' !! q = fs !! q).
Proof.
  intros test_file.
  unfold verificar_permisos, try_except, mbind, mret, py_mbind, py_mret,
    py_bind, py_ret, escribir_texto, os_remove. fold test_file.
  destruct (abrir' test_file fs) as [e|] eqn:Ea.
  { exists false, fs. repeat split; try done; [by intros [? _]|by left]. }
  rewrite lookup_insert_eq.
  destruct (no_borrable test_file) as [e|] eqn:Eb.
  - exists false. eexists. split; [reflexivity|].
    repeat split; try done; [by intros [_ ?]|by right|].
    intros q Hq. by rewrite lookup_insert_ne.
  - exists true. eexists. split; [reflexivity|].
    repeat split; try done; [intros _; by rewrite delete_insert_eq|].
    intros q Hq. rewrite lookup_delete_ne, lookup_insert_ne by done; done.
Qed.

(** The folder that holds the probe of a folder is the folder. *)
Lemma hay_carpeta_sonda (folder : string) (fs : filesystem) :
  folder ≠ "" → Str.endswith_char folder sep = false →
  hay_carpeta (path_join folder "test_write.tmp") fs = is_dir (fs !! folder).
Proof.
  intros Hf He. unfold hay_carpeta, path_join.
  change (Str.startswith "test_write.tmp" (String sep "")) with false.
  rewrite He, orb_false_r.
  replace (String.eqb folder "") with false
    by (symmetry; by apply String.eqb_neq).
  cbv zeta. cbn [orb].
  change (folder +:+ String sep "" +:+ "test_write.tmp")
    with (folder +:+ String sep "" +:+ "test_write.tmp").
  rewrite (path_dirname_join folder "test_write.tmp") by done.
  replace (String.eqb folder "") with false
    by (symmetry; by apply String.eqb_neq).
  replace (String.eqb folder (repeat_char sep (String.length folder))) with false;
    [done|].
  symmetry. apply String.eqb_neq. intros E.
  pose proof (repeat_char_endswith sep (String.length folder)) as Hr.
  rewrite <- E in Hr. rewrite Hr in He by done. discriminate.
Qed.

(** X9: [verificar_permisos] always returns.  It answers [True] exactly
    when the probe [folder/test_write.tmp] is no directory, the folder that
    holds it is a directory, the system lets the probe be written and lets
    it be removed; then nothing is left at the probe path, a file that was
    there under that name included.  It answers [False] for a folder that is
    not there, the file system untouched.  On [False] the file system is as
    it was, or, when it was the removal that the system refused, the probe
    stays behind, in the place of a file that was there under that name.
    No other path changes. *)
Theorem X9_verificar_permisos (folder : string) (fs : filesystem) :
  let test_file := path_join folder "test_write.tmp" in
  ∃ b fs', verificar' folder fs = (fs', Return b) ∧
    (b = true ↔
     is_dir (fs !! test_file) = false ∧ hay_carpeta test_file fs = true ∧
     denegado test_file = None ∧ no_borrable test_file = None) ∧
    (b = true → fs' = delete test_file fs ∧ fs' !! test_file = None) ∧
    (folder ≠ "" → Str.endswith_char folder sep = false →
     is_dir (fs !! folder) = false → b = false ∧ fs' = fs) ∧
    (b = false →
     fs' = fs ∨
     (is_Some (no_borrable test_file) ∧
      fs' = <[test_file := File [Byte.x74; Byte.x65; Byte.x73; Byte.x74]]> fs)) ∧
    (∀ q, q ≠ test_file → fs' !! q = fs !! q).
Proof.
  clear e_existe. intros test_file.
  destruct (verificar_permisos_spec folder fs) as (b & fs' & H1 & H2 & H3 & H4 & H5).
  fold test_file in H2, H3, H4, H5.
  assert (Ha : abrir' test_file fs = None ↔
               is_dir (fs !! test_file) = false ∧ hay_carpeta test_file fs = true ∧
               denegado test_file = None).
  { unfold abrir_escritura.
    destruct (is_dir (fs !! test_file)), (hay_carpeta test_file fs); cbn;
      split; try done; try (by intros (? & ? & ?)). }
  exists b, fs'. split; [exact H1|]. split; [|split; [|split; [|split]]].
  - rewrite H2, Ha. tauto.
  - intros Hb. split; [by apply H3|]. rewrite (H3 Hb). apply lookup_delete_eq.
  - intros Hf He Hd.
    assert (Hn : abrir' test_file fs ≠ None).
    { rewrite Ha. intros (_ & Hc & _). unfold test_file in Hc.
      rewrite hay_carpeta_sonda in Hc by done. congruence. }
    destruct b.
    + destruct (proj1 H2 eq_refl) as [? _]. done.
    + split; [done|]. destruct (H4 eq_refl) as [->|(? & _)]; done.
  - intros Hb. destruct (H4 Hb) as [->|(_ & ? & ->)]; [by left|by right].
  - exact H5.
Qed.

(** X10: a script at [d/name] finds its resources in [d]: run from source,
    [get_resource_path] is [d] and [setup_u2net_path] works on [d/u2net];
    frozen with [_MEIPASS] set, the resources are that folder. *)
Theorem X10_resource_path (sys : Sys) (d name : string) :
  d ≠ "" → Str.endswith_char d sep = false → Str.has_char sep name = false →
  (sys_frozen sys = false → file_abspath sys = d +:+ "/" +:+ name →
   get_resource_path sys = d ∧
   path_join (get_resource_path sys) "u2net" = d +:+ "/u2net") ∧
  (sys_frozen sys = true → sys_meipass sys = None →
   sys_executable sys = d +:+ "/" +:+ name →
   get_resource_path sys = d) ∧
  (∀ m, sys_frozen sys = true → sys_meipass sys = Some m →
   get_resource_path sys = m).
Proof.
  intros Hd He Hn. unfold get_resource_path. split; [|split].
  - intros -> ->. rewrite path_dirname_join by done. split; [done|].
    unfold path_join. change (Str.startswith "u2net" (String sep "")) with false.
    rewrite He, orb_false_r.
    replace (String.eqb d "") with false; [done|].
    symmetry. by apply String.eqb_neq.
  - intros -> -> ->. by apply path_dirname_join.
  - intros m -> ->. reflexivity.
Qed.

(** X11: when [setup_u2net_path] returns, [U2NET_HOME] is the returned
    path, [u2net] beside the resources, that path is a directory, the other
    variables and every entry the file system had are as before; when it
    raises, as on a file named [u2net], the file system and the environment
    are untouched, [U2NET_HOME] keeping whatever it held. *)
Theorem X11_setup_u2net_path (sys : Sys) (m : Mundo) :
  let u2net_path := path_join (get_resource_path sys) "u2net" in
  match setup' sys m with
  | (m', Return r) =>
      r = u2net_path ∧
      m_env m' !! "U2NET_HOME" = Some u2net_path ∧
      (∀ k, k ≠ "U2NET_HOME" → m_env m' !! k = m_env m !! k) ∧
      is_dir (m_fs m' !! u2net_path) = true ∧
      (∀ q, is_Some (m_fs m !! q) → m_fs m' !! q = m_fs m !! q)
  | (m', Raise e) =>
      m_fs m' = m_fs m ∧ m_env m' = m_env m ∧
      is_dir (m_fs m !! u2net_path) = false
  end.
Proof.
  intros u2net_path. unfold setup_u2net_path. fold u2net_path.
  pose proof (makedirs_conserva u2net_path (m_fs m)) as Hk.
  unfold makedirs_exist_ok in *.
  destruct (m_fs m !! u2net_path) as [[c|sz]|] eqn:E; cbn [m_fs m_env].
  - done.
  - repeat split; try done.
    + by rewrite lookup_insert_eq.
    + intros k Hk'. by rewrite lookup_insert_ne.
    + by rewrite E.
  - destruct (denegado u2net_path) as [e|]; cbn [m_fs m_env fst] in *; [done|].
    repeat split; try done.
    + by rewrite lookup_insert_eq.
    + intros k Hk'. by rewrite lookup_insert_ne.
    + by rewrite lookup_insert_eq.
Qed.

(** X12: a path typed between double quotes, with no blank before or
    after it inside the quotes, is the path itself: [main] does with ["s"]
    what it does with [s]. *)
Theorem X12_quoted_path (sys : Sys) (s : string) (listdir : list string)
    (p : PoolRun) (m : Mundo) :
  Str.strip s = s →
  strip_char comilla (Str.strip (String comilla (s +:+ String comilla "")))
  = strip_char comilla (Str.strip s) ∧
  main_completo' sys (String comilla (s +:+ String comilla "")) listdir p m
  = main_completo' sys s listdir p m.
Proof.
  intros Hs.
  assert (E : strip_char comilla
                (Str.strip (String comilla (s +:+ String comilla "")))
              = strip_char comilla (Str.strip s)).
  { rewrite strip_entre_comillas, Hs. apply strip_char_quoted. }
  split; [exact E|]. unfold main_completo. by rewrite E.
Qed.

(** Whatever the batch did, it wrote at most the output paths. *)
Lemma main_solo_escribe (inf : string) (listdir : list string) (p : PoolRun)
    (fs : filesystem) :
  solo_escribe
    ((λ f, path_join (path_join inf "imagenes_sin_fondo") (output_filename_of f))
       <$> buscar_archivos listdir)
    fs (fs_final fs (main' inf listdir p fs)).
Proof.
  set (salidas := (λ f, path_join (path_join inf "imagenes_sin_fondo")
                          (output_filename_of f)) <$> buscar_archivos listdir).
  pose proof (main_estable_fin Image remove image_open_rgba image_encode
    os_error denegado inf listdir p fs (λ st, solo_escribe salidas fs (est_fs st))) as H.
  destruct (main' inf listdir p fs) as [|st|e st|st]; cbn [fs_final];
    [apply solo_escribe_refl|apply H..].
  all: try apply solo_escribe_refl.
  all: split;
    [ intros i r st' H'; by rewrite contar_fs
    | intros t st' Ht H'; cbn [est_fs con_fs];
      eapply solo_escribe_trans; [exact H'|];
      apply procesar_msg_solo_escribe;
      apply list_elem_of_fmap in Ht as (f & -> & Hf); unfold salidas;
      change (output_path_of (inf, path_join inf "imagenes_sin_fondo", f))
        with ((λ f, path_join (path_join inf "imagenes_sin_fondo")
                      (output_filename_of f)) f);
      by apply list_elem_of_fmap_2 ].
Qed.

(** A name of the input folder is no path under [imagenes_sin_fondo]. *)
Lemma entrada_fuera_de_salida (inf f x : string) :
  es_nombre f → Str.startswith x (String sep "") = false →
  path_join inf f ≠ path_join (path_join inf "imagenes_sin_fondo") x.
Proof.
  intros Hf Hx E.
  rewrite (path_join_relative _ f) in E by by apply startswith_has_char.
  rewrite (path_join_relative _ x) in E by done.
  rewrite dir_prefix_output_folder, app_assoc_str in E.
  apply String.app_inj in E. unfold es_nombre in Hf.
  rewrite E, has_char_app in Hf. discriminate.
Qed.

(** X13: whichever way [main] ends, a file that sits in the input folder
    under a plain name holds afterwards what it held before: neither the
    model folder, nor the output folder, nor the write probe, nor the batch
    touches it. *)
Theorem X13_input_files_intact (sys : Sys) (entrada : string)
    (listdir : list string) (p : PoolRun) (m m' : Mundo) (s : Salida)
    (f : string) (c : bytes) :
  main_completo' sys entrada listdir p m = (m', s) →
  es_nombre f →
  m_fs m !! path_join (strip_char comilla (Str.strip entrada)) f = Some (File c) →
  m_fs m' !! path_join (strip_char comilla (Str.strip entrada)) f = Some (File c).
Proof.
  intros Hm Hf Hc. unfold main_completo in Hm.
  set (inf := strip_char comilla (Str.strip entrada)) in *.
  set (outf := path_join inf "imagenes_sin_fondo") in *.
  assert (H1 : m_fs (setup' sys m).1 !! path_join inf f = Some (File c)).
  { unfold setup_u2net_path.
    pose proof (makedirs_conserva (path_join (get_resource_path sys) "u2net")
                  (m_fs m) (path_join inf f)) as Hk.
    destruct (makedirs' _ (m_fs m)) as [fs1 [[]|e]]; cbn [fst m_fs] in *;
      rewrite Hk; eauto. }
  destruct (String.eqb inf ""); [by injection Hm as <- _|].
  destruct (negb _); [by injection Hm as <- _|].
  pose proof (makedirs_conserva outf (m_fs (setup' sys m).1) (path_join inf f))
    as H2.
  destruct (makedirs' outf _) as [fs2 [[]|e]]; cbn [fst] in H2.
  2: { injection Hm as <- _. cbn [m_fs]. rewrite H2; eauto. }
  rewrite H1 in H2. specialize (H2 (mk_is_Some _ _ eq_refl)).
  destruct (verificar_permisos_spec outf fs2) as (b & fs3 & Hv & _ & _ & _ & Hq).
  rewrite Hv in Hm.
  assert (H3 : fs3 !! path_join inf f = Some (File c)).
  { rewrite Hq; [done|]. by apply entrada_fuera_de_salida. }
  destruct b; [|by injection Hm as <- _].
  injection Hm as <- _. cbn [m_fs].
  destruct (main_solo_escribe inf listdir p fs3) as (Hs & _ & _).
  rewrite Hs; [done|]. intros Hin.
  apply list_elem_of_fmap in Hin as (f' & E & _).
  by apply (entrada_no_es_salida inf f f').
Qed.

(** X14: when [main] reaches the batch, then afterwards, however the batch
    ends, the output folder is a directory and no write probe is in it: the
    probe was removed and no output is named like it. *)
Theorem X14_output_folder_ready (sys : Sys) (entrada : string)
    (listdir : list string) (p : PoolRun) (m m' : Mundo) (r : MainResult) :
  main_completo' sys entrada listdir p m = (m', Lote r) →
  let output_folder :=
    path_join (strip_char comilla (Str.strip entrada)) "imagenes_sin_fondo" in
  is_dir (m_fs m' !! output_folder) = true ∧
  m_fs m' !! path_join output_folder "test_write.tmp" = None ∧
  is_dir (m_fs m' !! strip_char comilla (Str.strip entrada)) = true.
Proof.
  intros Hm. unfold main_completo in Hm.
  set (inf := strip_char comilla (Str.strip entrada)) in *. cbn zeta.
  set (outf := path_join inf "imagenes_sin_fondo") in *.
  destruct (String.eqb inf ""); [discriminate|].
  destruct (is_dir (m_fs (setup' sys m).1 !! inf)) eqn:Hi; [|discriminate].
  cbn [negb] in Hm.
  pose proof (makedirs_conserva outf (m_fs (setup' sys m).1) inf) as Hk.
  assert (H2 : is_dir ((makedirs' outf (m_fs (setup' sys m).1)).1 !! outf) = true
             ∨ ∃ e, (makedirs' outf (m_fs (setup' sys m).1)).2 = Raise e).
  { unfold makedirs_exist_ok.
    destruct (m_fs (setup' sys m).1 !! outf) as [[?|?]|] eqn:E; cbn [fst snd].
    - right. by eexists.
    - left. by rewrite E.
    - destruct (denegado outf); cbn [fst snd]; [right; by eexists|].
      left. by rewrite lookup_insert_eq. }
  destruct (makedirs' outf _) as [fs2 [[]|e]]; cbn [fst snd] in *;
    [|discriminate].
  destruct H2 as [H2|[e He]]; [|discriminate].
  assert (Hi2 : is_dir (fs2 !! inf) = true).
  { rewrite Hk; [done|]. destruct (m_fs (setup' sys m).1 !! inf); [eauto|done]. }
  destruct (verificar_permisos_spec outf fs2) as (b & fs3 & Hv & _ & Hd & _ & Hq).
  rewrite Hv in Hm. destruct b; [|discriminate]. injection Hm as <- <-.
  cbn [m_fs]. specialize (Hd eq_refl).
  assert (Ht : path_join outf "test_write.tmp" = dir_prefix outf +:+ "test_write.tmp")
    by (by apply path_join_relative).
  assert (Hne : ∀ x, x ≠ "" → dir_prefix outf +:+ x ≠ outf).
  { intros x Hx E. assert (El : String.length (dir_prefix outf +:+ x)
                                 = String.length outf) by by rewrite E.
    rewrite length_app_str in El. unfold dir_prefix in El.
    destruct (_ || _); [|rewrite length_app_str in El; cbn in El];
      destruct x; try done; cbn in El; lia. }
  assert (Hne2 : ∀ x, x ≠ "" → dir_prefix outf +:+ x ≠ inf).
  { intros x Hx E. assert (El : String.length (dir_prefix outf +:+ x)
                                 = String.length inf) by by rewrite E.
    unfold outf in El. rewrite dir_prefix_output_folder, !length_app_str in El.
    unfold dir_prefix in El.
    destruct (_ || _); [|rewrite length_app_str in El]; cbn in El; lia. }
  destruct (main_solo_escribe inf listdir p fs3) as (Hs & Hdir & _).
  fold outf in Hs. split; [|split].
  - rewrite Hdir, Hq; [done|]. rewrite Ht. intros E. by apply (Hne "test_write.tmp").
  - rewrite Hs.
    + rewrite Hd. apply lookup_delete_eq.
    + intros Hin. apply list_elem_of_fmap in Hin as (f' & E & _).
      rewrite Ht, (path_join_relative outf (output_filename_of f')) in E
        by apply output_filename_relative.
      apply String.app_inj in E. unfold output_filename_of in E.
      assert (El : String.length "test_write.tmp"
                   = String.length (stem f' +:+ "_sin_fondo.webp")) by by rewrite E.
      rewrite length_app_str in El. cbn in El. lia.
  - rewrite Hdir, Hq; [done|]. rewrite Ht. intros E. by apply (Hne2 "test_write.tmp").
Qed.

End EntornoProps.

(** ** The further properties on concrete runs *)

(** The run in which the pool breaks after one result. *)
Lemma X2_witness :
  ∃ st, Ejemplo.main "/in" ["a.jpg"; "b.jpg"] Ejemplo.pool_muere Ejemplo.fs_dos
        = Resumen st ∧
    cuenta_lineas st.
Proof.
  eexists. split; [reflexivity|].
  refine (proj1 (X2_counters_match_lines Ejemplo.Image Ejemplo.remove
           Ejemplo.image_open_rgba Ejemplo.image_encode Ejemplo.os_error Ejemplo.denegado
           "/in" ["a.jpg"; "b.jpg"] Ejemplo.pool_muere Ejemplo.fs_dos _ _)).
  reflexivity.
Defined.

(** The same run leaves the two pictures where they were. *)
Lemma X3_witness :
  ∃ st, Ejemplo.main "/in" ["a.jpg"; "b.jpg"] Ejemplo.pool_muere Ejemplo.fs_dos
        = Resumen st ∧
    solo_escribe
      ((λ f, path_join (path_join "/in" "imagenes_sin_fondo") (output_filename_of f))
         <$> buscar_archivos ["a.jpg"; "b.jpg"])
      Ejemplo.fs_dos (est_fs st).
Proof.
  eexists. split; [reflexivity|].
  refine (X3_batch_writes_only_outputs Ejemplo.Image Ejemplo.remove
           Ejemplo.image_open_rgba Ejemplo.image_encode Ejemplo.os_error Ejemplo.denegado
           "/in" ["a.jpg"; "b.jpg"] Ejemplo.pool_muere Ejemplo.fs_dos _ _).
  reflexivity.
Defined.

(** The run whose second task finishes first. *)
Lemma X4_witness :
  ∃ st stb,
    Ejemplo.main "/in" ["a.jpg"; "b.jpg"] Ejemplo.pool_invertido Ejemplo.fs_uno
    = Resumen st ∧
    Ejemplo.secuencial "/in" (path_join "/in" "imagenes_sin_fondo") 2 1
      ["a.jpg"; "b.jpg"] (Ejemplo.st_inicial Ejemplo.fs_uno) = (stb, None) ∧
    est_stdout st = est_stdout stb ∧
    resultados_exitosos st = resultados_exitosos stb ∧
    resultados_con_error st = resultados_con_error stb.
Proof.
  apply (X4_pool_agrees_with_sequential Ejemplo.Image Ejemplo.remove
           Ejemplo.image_open_rgba Ejemplo.image_encode Ejemplo.os_error Ejemplo.denegado
           "/in" ["a.jpg"; "b.jpg"] Ejemplo.pool_invertido Ejemplo.fs_uno).
  - repeat constructor.
  - discriminate.
  - exact pool_invertido_sano.
Defined.

(** A picture that goes through. *)
Lemma X6_witness :
  ∃ fs' m,
    Ejemplo.procesar_imagen_msg Ejemplo.tarea_a Ejemplo.fs_dos = (fs', Return m) ∧
    sitio m = L100 ∧
    m = Exito "a.jpg" (output_filename_of "a.jpg").
Proof.
  eexists _, _. split; [reflexivity|]. split; [reflexivity|].
  refine (proj1 (X6_success_means_written Ejemplo.Image Ejemplo.remove
           Ejemplo.image_open_rgba Ejemplo.image_encode Ejemplo.os_error Ejemplo.denegado
           Ejemplo.tarea_a Ejemplo.fs_dos _ _ _ _)); reflexivity.
Defined.



(** Where files can be written and not removed the answer is [False], and
    the probe stays behind. *)
Example verificar_permisos_pegado :
  EjemploEntorno.verificar_permisos "/pegado" EjemploEntorno.fs_pegado
  = (<["/pegado/test_write.tmp" := File [Byte.x74; Byte.x65; Byte.x73; Byte.x74]]>
       EjemploEntorno.fs_pegado, Return false).
Proof. vm_compute. reflexivity. Qed.

(** A probe in a folder that already holds a file named like it, and a
    probe in a folder that is not there. *)
Lemma X9_witness :
  (∃ b fs',
     EjemploEntorno.verificar_permisos "/in/imagenes_sin_fondo"
       EjemploEntorno.fs_sonda = (fs', Return b) ∧
     (b = true → fs' !! "/in/imagenes_sin_fondo/test_write.tmp" = None)) ∧
  (∃ b fs',
     EjemploEntorno.verificar_permisos "/nada" ∅ = (fs', Return b) ∧
     b = false ∧ fs' = ∅).
Proof.
  split.
  - destruct (X9_verificar_permisos Ejemplo.os_error Ejemplo.denegado
                EjemploEntorno.no_borrable
                "/in/imagenes_sin_fondo" EjemploEntorno.fs_sonda)
      as (b & fs' & H1 & _ & H3 & _).
    exists b, fs'. split; [exact H1|]. intros Hb. exact (proj2 (H3 Hb)).
  - destruct (X9_verificar_permisos Ejemplo.os_error Ejemplo.denegado
                EjemploEntorno.no_borrable "/nada" ∅)
      as (b & fs' & H1 & _ & _ & H4 & _).
    exists b, fs'. split; [exact H1|].
    apply H4; [discriminate|reflexivity|reflexivity].
Defined.

(** The script at [/app/limpiarfondo.py]. *)
Lemma X10_witness :
  get_resource_path EjemploEntorno.sys_script = "/app" ∧
  path_join (get_resource_path EjemploEntorno.sys_script) "u2net" = "/app/u2net".
Proof.
  apply (proj1 (X10_resource_path EjemploEntorno.sys_script "/app"
                  "limpiarfondo.py" ltac:(discriminate) eq_refl eq_refl));
    reflexivity.
Defined.

(** The model folder of the script at [/app/limpiarfondo.py]. *)
Lemma X11_witness :
  match EjemploEntorno.setup_u2net_path EjemploEntorno.sys_script
          EjemploEntorno.mundo with
  | (m', Return r) => m_env m' !! "U2NET_HOME" = Some "/app/u2net"
  | (m', Raise e) => False
  end.
Proof.
  exact (proj1 (proj2 (X11_setup_u2net_path EjemploEntorno.e_existe
                Ejemplo.denegado EjemploEntorno.tam_dir
                EjemploEntorno.sys_script EjemploEntorno.mundo))).
Defined.

(** The folder [/in], typed with and without quotes. *)
Lemma X12_witness :
  Str.strip "/in" = "/in" ∧
  EjemploEntorno.main_completo EjemploEntorno.sys_script
    (String comilla ("/in" +:+ String comilla "")) ["a.jpg"; "b.jpg"]
    Ejemplo.pool_invertido EjemploEntorno.mundo
  = EjemploEntorno.main_completo EjemploEntorno.sys_script
      "/in" ["a.jpg"; "b.jpg"] Ejemplo.pool_invertido EjemploEntorno.mundo.
Proof.
  split; [reflexivity|].
  exact (proj2 (X12_quoted_path Ejemplo.Image Ejemplo.remove
           Ejemplo.image_open_rgba Ejemplo.image_encode Ejemplo.os_error
           EjemploEntorno.e_existe Ejemplo.denegado EjemploEntorno.tam_dir
           EjemploEntorno.no_borrable
           EjemploEntorno.sys_script "/in" ["a.jpg"; "b.jpg"]
           Ejemplo.pool_invertido EjemploEntorno.mundo eq_refl)).
Defined.

(** A whole run on [/in]: the picture [a.jpg] afterwards. *)
Lemma X13_witness :
  ∃ m' s,
    EjemploEntorno.main_completo EjemploEntorno.sys_script "/in"
      ["a.jpg"; "b.jpg"; "imagenes_sin_fondo"] Ejemplo.pool_invertido
      EjemploEntorno.mundo = (m', s) ∧
    m_fs m' !! path_join (strip_char comilla (Str.strip "/in")) "a.jpg"
    = Some (File [Byte.x01]).
Proof.
  eexists _, _. split; [reflexivity|].
  refine (X13_input_files_intact Ejemplo.Image Ejemplo.remove
           Ejemplo.image_open_rgba Ejemplo.image_encode Ejemplo.os_error
           EjemploEntorno.e_existe Ejemplo.denegado EjemploEntorno.tam_dir
           EjemploEntorno.no_borrable
           EjemploEntorno.sys_script "/in"
           ["a.jpg"; "b.jpg"; "imagenes_sin_fondo"] Ejemplo.pool_invertido
           EjemploEntorno.mundo _ _ "a.jpg" [Byte.x01] _ _ _); reflexivity.
Defined.

(** The same run: the output folder afterwards. *)
Lemma X14_witness :
  ∃ m' r,
    EjemploEntorno.main_completo EjemploEntorno.sys_script "/in"
      ["a.jpg"; "b.jpg"; "imagenes_sin_fondo"] Ejemplo.pool_invertido
      EjemploEntorno.mundo = (m', Lote r) ∧
    is_dir (m_fs m' !! path_join (strip_char comilla (Str.strip "/in"))
                         "imagenes_sin_fondo")
    = true.
Proof.
  eexists _, _. split; [reflexivity|].
  refine (proj1 (X14_output_folder_ready Ejemplo.Image Ejemplo.remove
           Ejemplo.image_open_rgba Ejemplo.image_encode Ejemplo.os_error
           EjemploEntorno.e_existe Ejemplo.denegado EjemploEntorno.tam_dir
           EjemploEntorno.no_borrable
           EjemploEntorno.sys_script "/in"
           ["a.jpg"; "b.jpg"; "imagenes_sin_fondo"] Ejemplo.pool_invertido
           EjemploEntorno.mundo _ _ _)); reflexivity.
Defined.
